(** * vue-maplibre-gl: layer readiness gating and popup synchronisation

    A shallow embedding of two components of the bindings:

    - [src/lib/components/layers/hillshade.layer.ts], the hillshade layer
      binding, whose [setup] decides when the imperative [addLayer] call is
      issued against the map engine;
    - [src/lib/components/popup.component.ts], the popup component, whose
      [setup] translates reactive props into calls on a [Popup] object.

    The map engine and the reactive framework are collaborators of the
    components: they are modelled by the state they expose to the components
    (the set of registered layers, the attached listeners, the classes of the
    popup container) together with the chronological trace of calls made on
    them. *)

From Stdlib Require Import Ascii.
From stdpp Require Import base option list gmap strings.

(** ** JavaScript truthiness of the values the components test *)

Module JS.

(** A string is falsy exactly when it is empty. *)
Definition truthy_string (s : string) : bool :=
  match s with
  | EmptyString => false
  | String _ _ => true
  end.

(** [undefined] is [None]; a present value is judged by [t]. *)
Definition truthy_opt {A} (t : A → bool) (o : option A) : bool :=
  match o with
  | Some a => t a
  | None => false
  end.

(** [b] alone is the truthiness of a boolean. *)
Definition truthy_bool (b : bool) : bool := b.

(** [x === undefined] *)
Definition is_undefined {A} (o : option A) : bool :=
  match o with
  | Some _ => false
  | None => true
  end.

(** [a || b] on possibly undefined values. *)
Definition or_else {A} (t : A → bool) (a b : option A) : option A :=
  if truthy_opt t a then a else b.

(** [a || d] where [d] is a string. *)
Definition or_string (a : option string) (d : string) : string :=
  match a with
  | Some s => if truthy_string s then s else d
  | None => d
  end.

End JS.

(** ** The hillshade layer binding *)

Module Layer.

(** A bag of style properties ([layout], [paint]). *)
Definition bag := list (string * string).

(** The [source] prop is a source id or an inline source specification
    (an object, always truthy). *)
Inductive source_decl :=
| SourceName (name : string)
| SourceInline (spec : bag).

Definition truthy_source (s : source_decl) : bool :=
  match s with
  | SourceName n => JS.truthy_string n
  | SourceInline _ => true
  end.

Record Props := {
  layerId : string;
  source : option source_decl;
  before : option string;
  layout : option bag;
  paint : option bag
}.

(** Modelled from the spec: [LayerLib.genLayerOpts] is declared outside the
    sources at hand.  Layer options are the projection of the declared
    properties: layer identity, type tag, source, and the layout and paint
    bags. *)
Record LayerOpts := {
  lo_id : string;
  lo_type : string;
  lo_source : option source_decl;
  lo_layout : option bag;
  lo_paint : option bag
}.

Definition genLayerOpts (id type : string) (props : Props)
    (sourceId : option string) : LayerOpts :=
  {| lo_id := id;
     lo_type := type;
     lo_source := JS.or_else truthy_source (source props) (SourceName <$> sourceId);
     lo_layout := layout props;
     lo_paint := paint props |}.

(** Calls leaving the component, in the order they are made. *)
Inductive call :=
| Warn (msg : string)
| AddLayer (opts : LayerOpts) (beforeId : option string)
| RemoveLayer (id : string)
| On (ev layer : string)
| Off (ev layer : string).

Definition is_addLayer (c : call) : bool :=
  match c with AddLayer _ _ => true | _ => false end.

Definition is_removeLayer (c : call) : bool :=
  match c with RemoveLayer _ => true | _ => false end.

Definition is_warn (c : call) : bool :=
  match c with Warn _ => true | _ => false end.

Definition count (p : call → bool) (t : list call) : nat :=
  length (List.filter p t).

(** What the binding can see of its collaborators: the layers registered in
    the engine, the layer listeners attached to it, and the trace. *)
Record world := {
  layers : gset string;
  listeners : list (string * string);
  trace : list call
}.

Definition emit (c : call) (w : world) : world :=
  {| layers := layers w; listeners := listeners w; trace := trace w ++ [c] |}.

(** [warn(msg)] *)
Definition warn (msg : string) (w : world) : world := emit (Warn msg) w.

(** [map.addLayer(opts, before)]: the layer is registered under its id. *)
Definition addLayer (opts : LayerOpts) (beforeId : option string) (w : world) : world :=
  let w := emit (AddLayer opts beforeId) w in
  {| layers := {[ lo_id opts ]} ∪ layers w;
     listeners := listeners w;
     trace := trace w |}.

(** [map.removeLayer(id)] *)
Definition removeLayer (id : string) (w : world) : world :=
  let w := emit (RemoveLayer id) w in
  {| layers := layers w ∖ {[ id ]};
     listeners := listeners w;
     trace := trace w |}.

(** [map.on(ev, layer, handler)] *)
Definition on (ev layer : string) (w : world) : world :=
  let w := emit (On ev layer) w in
  {| layers := layers w;
     listeners := listeners w ++ [(ev, layer)];
     trace := trace w |}.

(** [map.off(ev, layer, handler)] *)
Definition off (ev layer : string) (w : world) : world :=
  let w := emit (Off ev layer) w in
  {| layers := layers w;
     listeners := List.filter (λ l, negb (bool_decide (l = (ev, layer)))) (listeners w);
     trace := trace w |}.

Section binding.

(** The events a layer forwards ([LayerLib.SHARED.emits]) are declared
    outside the sources at hand. *)
Variable layer_events : list string.

(** Modelled from the spec: [LayerLib.registerLayerEvents] attaches one
    forwarding listener per layer event. *)
Definition registerLayerEvents (layer : string) (w : world) : world :=
  foldl (λ w ev, on ev layer w) w layer_events.

(** Modelled from the spec: the counterpart detaching them. *)
Definition unregisterLayerEvents (layer : string) (w : world) : world :=
  foldl (λ w ev, off ev layer w) w layer_events.

(** The gating condition [il && (src || src === undefined)]. *)
Definition satisfied (il : bool) (src : option bool) : bool :=
  il && (JS.truthy_opt JS.truthy_bool src || JS.is_undefined src).

(** The callback of [watch([isLoaded, sourceRef], ...)]. *)
Definition watch_callback (props : Props) (sourceId : option string)
    (il : bool) (src : option bool) (w : world) : world :=
  if satisfied il src then
    let w := addLayer (genLayerOpts (layerId props) "hillshade" props sourceId)
                      (JS.or_else JS.truthy_string (before props) None) w in
    registerLayerEvents (layerId props) w
  else w.

(** The calls one run of the callback makes. *)
Definition callback_calls (props : Props) (sourceId : option string)
    (il : bool) (src : option bool) : list call :=
  if satisfied il src then
    AddLayer (genLayerOpts (layerId props) "hillshade" props sourceId)
             (JS.or_else JS.truthy_string (before props) None)
    :: map (λ ev, On ev (layerId props)) layer_events
  else [].

(** Modelled from the spec: [useDisposableLayer] is declared outside the
    sources at hand.  On unmount the forwarded listeners are detached and
    the layer is removed whatever the readiness values are; a layer that
    is not registered is not removed a second time. *)
Definition disposeLayer (layer : string) (w : world) : world :=
  let w := unregisterLayerEvents layer w in
  if bool_decide (layer ∈ layers w) then removeLayer layer w else w.

(** A binding that passed source resolution: its props, the injected
    source id, whether the component is mounted, and the pair last seen
    by the watcher. *)
Record binding := {
  b_props : Props;
  b_sourceId : option string;
  b_mounted : bool;
  b_seen : bool * option bool
}.

(** [setup(props)], run with the current values [il] and [src] of the
    [isLoaded] and [sourceRef] references.  [None] is the early [return]:
    nothing was registered. *)
Definition setup (props : Props) (sourceId : option string)
    (il : bool) (src : option bool) (w : world) : option binding * world :=
  if negb (JS.truthy_opt JS.truthy_string sourceId)
     && negb (JS.truthy_opt truthy_source (source props)) then
    (None,
     warn "Hillshade Layer: layer must be used inside source tag or source prop must be set" w)
  else
    (Some {| b_props := props; b_sourceId := sourceId;
             b_mounted := true; b_seen := (il, src) |},
     (* { immediate: true } *)
     watch_callback props sourceId il src w).

(** What happens to a component after [setup]: the scheduler flushes with
    the references at some values, or the component is unmounted. *)
Inductive event :=
| Flush (il : bool) (src : option bool)
| Unmount.

#[global] Instance event_eq_dec : EqDecision event.
Proof. solve_decision. Defined.

(** A flush invokes the callback when one of the watched values differs
    from the one last seen; unmounting stops the watcher and runs the
    teardown hook. *)
Definition step (s : binding * world) (ev : event) : binding * world :=
  let '(b, w) := s in
  match ev with
  | Flush il src =>
      if b_mounted b && negb (bool_decide ((il, src) = b_seen b)) then
        ({| b_props := b_props b; b_sourceId := b_sourceId b;
            b_mounted := b_mounted b; b_seen := (il, src) |},
         watch_callback (b_props b) (b_sourceId b) il src w)
      else (b, w)
  | Unmount =>
      if b_mounted b then
        ({| b_props := b_props b; b_sourceId := b_sourceId b;
            b_mounted := false; b_seen := b_seen b |},
         disposeLayer (layerId (b_props b)) w)
      else (b, w)
  end.

Definition run (s : binding * world) (evs : list event) : binding * world :=
  foldl step s evs.

(** A component whose [setup] returned early has no watcher and no hook:
    nothing it is sent has an effect. *)
Definition step_component (s : option binding * world) (ev : event)
    : option binding * world :=
  match s with
  | (Some b, w) => let '(b', w') := step (b, w) ev in (Some b', w')
  | (None, w) => (None, w)
  end.

Definition run_component (s : option binding * world) (evs : list event)
    : option binding * world :=
  foldl step_component s evs.

(** The observations of a run: the pairs the callback was invoked on. *)
Fixpoint observations (mounted : bool) (seen : bool * option bool)
    (evs : list event) : list (bool * option bool) :=
  match evs with
  | [] => []
  | Flush il src :: evs =>
      if mounted && negb (bool_decide ((il, src) = seen)) then
        (il, src) :: observations mounted (il, src) evs
      else observations mounted seen evs
  | Unmount :: evs => observations false seen evs
  end.

Definition sat (o : bool * option bool) : bool := satisfied o.1 o.2.

End binding.

End Layer.

(** ** The popup component *)

Module Popup.

(** Payloads the component only passes on. *)
Definition LngLat : Type := Z * Z.
Definition Offset : Type := Z.
Definition element : Type := nat.
Definition map_id : Type := nat.
Definition marker_id : Type := nat.

Record Props := {
  coordinates : option LngLat;
  closeButton : bool;
  closeOnClick : bool;
  closeOnMove : bool;
  focusAfterOpen : bool;
  anchor : option string;
  offset : option Offset;
  className : option string;
  maxWidth : string;
  subpixelPositioning : bool;
  text : option string
}.

Definition with_coordinates (v : option LngLat) (p : Props) : Props :=
  {| coordinates := v; closeButton := closeButton p; closeOnClick := closeOnClick p;
     closeOnMove := closeOnMove p; focusAfterOpen := focusAfterOpen p;
     anchor := anchor p; offset := offset p; className := className p;
     maxWidth := maxWidth p; subpixelPositioning := subpixelPositioning p;
     text := text p |}.

Definition with_offset (v : option Offset) (p : Props) : Props :=
  {| coordinates := coordinates p; closeButton := closeButton p;
     closeOnClick := closeOnClick p; closeOnMove := closeOnMove p;
     focusAfterOpen := focusAfterOpen p; anchor := anchor p; offset := v;
     className := className p; maxWidth := maxWidth p;
     subpixelPositioning := subpixelPositioning p; text := text p |}.

Definition with_className (v : option string) (p : Props) : Props :=
  {| coordinates := coordinates p; closeButton := closeButton p;
     closeOnClick := closeOnClick p; closeOnMove := closeOnMove p;
     focusAfterOpen := focusAfterOpen p; anchor := anchor p; offset := offset p;
     className := v; maxWidth := maxWidth p;
     subpixelPositioning := subpixelPositioning p; text := text p |}.

Definition with_maxWidth (v : string) (p : Props) : Props :=
  {| coordinates := coordinates p; closeButton := closeButton p;
     closeOnClick := closeOnClick p; closeOnMove := closeOnMove p;
     focusAfterOpen := focusAfterOpen p; anchor := anchor p; offset := offset p;
     className := className p; maxWidth := v;
     subpixelPositioning := subpixelPositioning p; text := text p |}.

Definition with_subpixelPositioning (v : bool) (p : Props) : Props :=
  {| coordinates := coordinates p; closeButton := closeButton p;
     closeOnClick := closeOnClick p; closeOnMove := closeOnMove p;
     focusAfterOpen := focusAfterOpen p; anchor := anchor p; offset := offset p;
     className := className p; maxWidth := maxWidth p;
     subpixelPositioning := v; text := text p |}.

Definition with_text (v : option string) (p : Props) : Props :=
  {| coordinates := coordinates p; closeButton := closeButton p;
     closeOnClick := closeOnClick p; closeOnMove := closeOnMove p;
     focusAfterOpen := focusAfterOpen p; anchor := anchor p; offset := offset p;
     className := className p; maxWidth := maxWidth p;
     subpixelPositioning := subpixelPositioning p; text := v |}.

(** The closure [() => emit(eventName)] built by [emitEvent]. *)
Inductive handler := Emitter (eventName : string).

#[global] Instance handler_eq_dec : EqDecision handler.
Proof. solve_decision. Defined.

(** The calls the component makes, chronologically. *)
Inductive call :=
| New (options : Props)
| MarkerSetPopup (m : marker_id)
| SetLngLat (c : LngLat)
| AddTo (m : option map_id)
| SetText (s : string)
| SetDOMContent (el : element)
| SetOffset (o : option Offset)
| SetMaxWidth (w : string)
| AddClassName (c : string)
| RemoveClassName (c : string)
| SetSubpixelPositioning (b : bool)
| OnEv (ev : string) (h : handler)
| OffEv (ev : string) (h : handler)
| Remove.

(** *** The component *)

(** The marker / coordinates branch of [setup].  [marker] and [map] are the
    injected references ([None]: nothing was provided), holding a possibly
    undefined value. *)
Definition attach (props : Props) (map : option (option map_id))
    (marker : option (option marker_id)) : list call :=
  match marker with
  | Some (Some m) => [MarkerSetPopup m]
  | _ =>
      match coordinates props, map with
      | Some c, Some mref => [SetLngLat c; AddTo mref]
      | _, _ => []
      end
  end.

(** [emitEvent(eventName)]: the listener it attaches, and the one detached by
    the [onBeforeUnmount] hook it registers. *)
Definition emitEvent_on (eventName : string) : list call :=
  [OnEv eventName (Emitter eventName)].

Definition emitEvent_off (eventName : string) : list call :=
  [OffEv eventName (Emitter eventName)].

(** The [onBeforeUnmount] hooks, in the order [setup] registers them: the two
    of [emitEvent], then [popup.remove()]. *)
Definition unmount_hooks : list (list call) :=
  [emitEvent_off "open"; emitEvent_off "close"; [Remove]].

(** The [remove()] passed to [expose]. *)
Definition exposed_remove : list call := [Remove].

(** A component instance: its current props, and whether its watchers and
    hooks are still live. *)
Record instance := {
  i_props : Props;
  i_live : bool
}.

(** [if (props.text) popup.setText(props.text)] *)
Definition initial_text (props : Props) : list call :=
  match text props with
  | Some s => if JS.truthy_string s then [SetText s] else []
  | None => []
  end.

Definition setup (props : Props) (map : option (option map_id))
    (marker : option (option marker_id)) : instance * list call :=
  ({| i_props := props; i_live := true |},
   [New props]
     ++ attach props map marker
     ++ initial_text props
     ++ emitEvent_on "open" ++ emitEvent_on "close").

(** The watcher callbacks. *)
Definition on_coordinates (v : option LngLat) : list call :=
  match v with
  | Some c => [SetLngLat c]
  | None => []
  end.

Definition on_text (v : option string) : list call :=
  [SetText (JS.or_string v EmptyString)].

Definition on_offset (v : option Offset) : list call := [SetOffset v].

Definition on_maxWidth (v : string) : list call := [SetMaxWidth v].

(** The calls are listed in program order; a call that throws ends the
    callback there ([Container.run_callback]). *)
Definition on_className (value previous : option string) : list call :=
  (match previous with
   | Some p => if JS.truthy_string p then [RemoveClassName p] else []
   | None => []
   end)
  ++
  (match value with
   | Some c => if JS.truthy_string c then [AddClassName c] else []
   | None => []
   end).

Definition on_subpixelPositioning (v : bool) : list call :=
  [SetSubpixelPositioning v].

(** [onMounted] *)
Definition on_mounted (root : option element) (props : Props) : list call :=
  match root with
  | Some el =>
      if negb (JS.truthy_opt JS.truthy_string (text props))
      then [SetDOMContent el] else []
  | None => []
  end.

(** What the framework and the callers do with an instance. *)
Inductive event :=
| PropCoordinates (v : option LngLat)
| PropText (v : option string)
| PropOffset (v : option Offset)
| PropMaxWidth (v : string)
| PropClassName (v : option string)
| PropSubpixelPositioning (v : bool)
| Mounted (root : option element)
| CallRemove
| BeforeUnmount.

Definition set_props (f : Props → Props) (i : instance) : instance :=
  {| i_props := f (i_props i); i_live := i_live i |}.

(** A watcher on a primitive prop runs its callback when the value differs
    from the previous one; [coordinates] (watched deeply) and [offset] hold
    objects, and every assignment is a change.  After unmount the watchers
    are stopped and the hooks have run; the exposed [remove] stays
    callable. *)
Definition react (i : instance) (ev : event) : instance * list call :=
  match ev with
  | CallRemove => (i, exposed_remove)
  | _ =>
    if i_live i then
      match ev with
      | PropCoordinates v => (set_props (with_coordinates v) i, on_coordinates v)
      | PropText v =>
          (set_props (with_text v) i,
           if bool_decide (v = text (i_props i)) then [] else on_text v)
      | PropOffset v => (set_props (with_offset v) i, on_offset v)
      | PropMaxWidth v =>
          (set_props (with_maxWidth v) i,
           if bool_decide (v = maxWidth (i_props i)) then [] else on_maxWidth v)
      | PropClassName v =>
          (set_props (with_className v) i,
           if bool_decide (v = className (i_props i)) then []
           else on_className v (className (i_props i)))
      | PropSubpixelPositioning v =>
          (set_props (with_subpixelPositioning v) i,
           if bool_decide (v = subpixelPositioning (i_props i)) then []
           else on_subpixelPositioning v)
      | Mounted root => (i, on_mounted root (i_props i))
      | CallRemove => (i, exposed_remove)
      | BeforeUnmount =>
          ({| i_props := i_props i; i_live := false |}, concat unmount_hooks)
      end
    else (i, [])
  end.

Fixpoint reacts (i : instance) (evs : list event) : instance * list call :=
  match evs with
  | [] => (i, [])
  | ev :: evs =>
      let '(i1, t1) := react i ev in
      let '(i2, t2) := reacts i1 evs in
      (i2, t1 ++ t2)
  end.

(** The whole life of a component: [setup], then the events. *)
Definition life (props : Props) (map : option (option map_id))
    (marker : option (option marker_id)) (evs : list event) : list call :=
  let '(i, t) := setup props map marker in
  t ++ (reacts i evs).2.

(** *** The popup object, as far as the calls determine it *)

Inductive content :=
| NoContent
| TextContent (s : string)
| DomContent (el : element).

Record popup := {
  p_lngLat : option LngLat;
  p_map : option (option map_id);
  p_marker : option marker_id;
  p_content : content;
  p_offset : option Offset;
  p_maxWidth : string;
  p_subpixel : bool;
  p_handlers : list (string * handler)
}.

(** [new Popup(options)]: not on a map, no content. *)
Definition create (options : Props) : popup :=
  {| p_lngLat := None; p_map := None; p_marker := None; p_content := NoContent;
     p_offset := offset options; p_maxWidth := maxWidth options;
     p_subpixel := subpixelPositioning options;
     p_handlers := [] |}.

Definition set_handlers (hs : list (string * handler)) (p : popup) : popup :=
  {| p_lngLat := p_lngLat p; p_map := p_map p; p_marker := p_marker p;
     p_content := p_content p; p_offset := p_offset p; p_maxWidth := p_maxWidth p;
     p_subpixel := p_subpixel p; p_handlers := hs |}.

Definition set_map (m : option (option map_id)) (p : popup) : popup :=
  {| p_lngLat := p_lngLat p; p_map := m; p_marker := p_marker p;
     p_content := p_content p; p_offset := p_offset p; p_maxWidth := p_maxWidth p;
     p_subpixel := p_subpixel p; p_handlers := p_handlers p |}.

Definition set_content (c : content) (p : popup) : popup :=
  {| p_lngLat := p_lngLat p; p_map := p_map p; p_marker := p_marker p;
     p_content := c; p_offset := p_offset p; p_maxWidth := p_maxWidth p;
     p_subpixel := p_subpixel p; p_handlers := p_handlers p |}.

(** The effect of one call on the position, the map, the marker, the
    content, the settings and the listeners of the popup.  The classes of its
    container are not part of this state: they exist only while the popup is
    open, and a class call can throw; module [Container] follows them. *)
Definition exec (p : popup) (c : call) : popup :=
  match c with
  | New options => create options
  | MarkerSetPopup m =>
      {| p_lngLat := p_lngLat p; p_map := p_map p; p_marker := Some m;
         p_content := p_content p; p_offset := p_offset p;
         p_maxWidth := p_maxWidth p; p_subpixel := p_subpixel p;
         p_handlers := p_handlers p |}
  | SetLngLat c =>
      {| p_lngLat := Some c; p_map := p_map p; p_marker := p_marker p;
         p_content := p_content p; p_offset := p_offset p;
         p_maxWidth := p_maxWidth p; p_subpixel := p_subpixel p;
         p_handlers := p_handlers p |}
  | AddTo m => set_map (Some m) p
  | SetText s => set_content (TextContent s) p
  | SetDOMContent el => set_content (DomContent el) p
  | SetOffset o =>
      {| p_lngLat := p_lngLat p; p_map := p_map p; p_marker := p_marker p;
         p_content := p_content p; p_offset := o;
         p_maxWidth := p_maxWidth p; p_subpixel := p_subpixel p;
         p_handlers := p_handlers p |}
  | SetMaxWidth w =>
      {| p_lngLat := p_lngLat p; p_map := p_map p; p_marker := p_marker p;
         p_content := p_content p; p_offset := p_offset p;
         p_maxWidth := w; p_subpixel := p_subpixel p;
         p_handlers := p_handlers p |}
  | AddClassName _ => p
  | RemoveClassName _ => p
  | SetSubpixelPositioning b =>
      {| p_lngLat := p_lngLat p; p_map := p_map p; p_marker := p_marker p;
         p_content := p_content p; p_offset := p_offset p;
         p_maxWidth := p_maxWidth p; p_subpixel := b;
         p_handlers := p_handlers p |}
  | OnEv ev h => set_handlers (p_handlers p ++ [(ev, h)]) p
  | OffEv ev h =>
      set_handlers
        (List.filter (λ x, negb (bool_decide (x = (ev, h)))) (p_handlers p)) p
  | Remove => set_map None p
  end.

Definition execs (p : popup) (t : list call) : popup := foldl exec p t.

(** The popup before [new Popup(...)] ran: nothing. *)
Definition blank : popup :=
  {| p_lngLat := None; p_map := None; p_marker := None; p_content := NoContent;
     p_offset := None; p_maxWidth := EmptyString; p_subpixel := false;
     p_handlers := [] |}.

(** Calls that change the listeners. *)
Definition on_handlers (c : call) : bool :=
  match c with New _ | OnEv _ _ | OffEv _ _ => true | _ => false end.

#[global] Instance popup_event_eq_dec : EqDecision event.
Proof. solve_decision. Defined.

Definition is_addTo (c : call) : bool :=
  match c with AddTo _ => true | _ => false end.

Definition is_setPopup (c : call) : bool :=
  match c with MarkerSetPopup _ => true | _ => false end.

End Popup.

(** ** The container of the popup and its classes *)

Module Container.

(** ASCII white space, as a class list sees it: tab, line feed, form feed,
    carriage return and space. *)
Definition is_whitespace (c : Ascii.ascii) : bool :=
  match c with
  | "009" | "010" | "012" | "013" | " " => true
  | _ => false
  end%char.

Fixpoint has_whitespace (s : string) : bool :=
  match s with
  | EmptyString => false
  | String c s => is_whitespace c || has_whitespace s
  end.

(** A token a class list accepts: not empty and without white space.
    [classList.add] and [classList.remove] throw on any other string. *)
Definition valid_token (s : string) : bool :=
  JS.truthy_string s && negb (has_whitespace s).

(** [s.split(' ')] *)
Fixpoint split_spaces (s : string) : list string :=
  match s with
  | EmptyString => [EmptyString]
  | String c s =>
      if bool_decide (c = " "%char) then EmptyString :: split_spaces s
      else match split_spaces s with
           | t :: ts => String c t :: ts
           | [] => [String c EmptyString]
           end
  end.

(** [classList.add(c)] and [classList.remove(c)]; [None] is the exception. *)
Definition classList_add (c : string) (l : list string) : option (list string) :=
  if valid_token c
  then Some (if bool_decide (c ∈ l) then l else l ++ [c])
  else None.

Definition classList_remove (c : string) (l : list string)
    : option (list string) :=
  if valid_token c
  then Some (List.filter (λ x, negb (bool_decide (x = c))) l)
  else None.

Fixpoint add_all (ts : list string) (l : list string) : option (list string) :=
  match ts with
  | [] => Some l
  | t :: ts =>
      match classList_add t l with
      | Some l => add_all ts l
      | None => None
      end
  end.

(** What the popup keeps about its container: the [className] option given
    to the constructor, and the classes of the container when there is one
    (the popup is open). *)
Record container := {
  k_option : option string;
  k_classes : option (list string)
}.


(** Opening the popup (by [addTo], or by the marker it is bound to) builds
    a new container, which gets the class names of the constructor's
    [className] option, split at the spaces. *)
Definition open (k : container) : option container :=
  match
    match k_option k with
    | Some s => if JS.truthy_string s then add_all (split_spaces s) [] else Some []
    | None => Some []
    end
  with
  | Some l => Some {| k_option := k_option k; k_classes := Some l |}
  | None => None
  end.

(** Closing it (by [remove], or by the user) drops the container. *)
Definition close (k : container) : container :=
  {| k_option := k_option k; k_classes := None |}.

(** The effect of one call of the component; [None] is an exception.
    Without a container the class calls do nothing. *)
Definition step (k : container) (c : Popup.call) : option container :=
  match c with
  | Popup.New options =>
      Some {| k_option := Popup.className options; k_classes := None |}
  | Popup.AddTo (Some _) => open k
  | Popup.AddTo None => None
  | Popup.Remove => Some (close k)
  | Popup.AddClassName c =>
      match k_classes k with
      | Some l =>
          match classList_add c l with
          | Some l => Some {| k_option := k_option k; k_classes := Some l |}
          | None => None
          end
      | None => Some k
      end
  | Popup.RemoveClassName c =>
      match k_classes k with
      | Some l =>
          match classList_remove c l with
          | Some l => Some {| k_option := k_option k; k_classes := Some l |}
          | None => None
          end
      | None => Some k
      end
  | _ => Some k
  end.




End Container.

(** ** Concrete components, used to evaluate the model *)

Module Samples.

Definition events : list string := ["click"; "mouseenter"; "mouseleave"].

(** A hillshade layer declared with the source id [srcX]. *)
Definition layerA : Layer.Props :=
  {| Layer.layerId := "layerA";
     Layer.source := Some (Layer.SourceName "srcX");
     Layer.before := None;
     Layer.layout := None;
     Layer.paint := None |}.

(** The same layer without a source prop. *)
Definition orphan : Layer.Props :=
  {| Layer.layerId := "layerA";
     Layer.source := None;
     Layer.before := None;
     Layer.layout := None;
     Layer.paint := None |}.

(** An engine with no layer and no listener, and an empty trace. *)
Definition fresh : Layer.world :=
  {| Layer.layers := ∅; Layer.listeners := []; Layer.trace := [] |}.

(** The binding [setup] builds for [layerA]. *)
Definition bindingA (il : bool) (src : option bool) : Layer.binding :=
  {| Layer.b_props := layerA; Layer.b_sourceId := None;
     Layer.b_mounted := true; Layer.b_seen := (il, src) |}.

(** A popup with coordinates and the class [a]. *)
Definition popupA : Popup.Props :=
  {| Popup.coordinates := Some (10, 20)%Z;
     Popup.closeButton := true;
     Popup.closeOnClick := true;
     Popup.closeOnMove := false;
     Popup.focusAfterOpen := true;
     Popup.anchor := None;
     Popup.offset := None;
     Popup.className := Some "a";
     Popup.maxWidth := "240px";
     Popup.subpixelPositioning := false;
     Popup.text := Some "hello" |}.

(** The instance [setup] builds for [popupA]. *)
Definition instanceA : Popup.instance :=
  {| Popup.i_props := popupA; Popup.i_live := true |}.

End Samples.

(** ** The build configuration *)

Module Build.

(** [fileName: format => `vue-maplibre-gl.${format}.js`] *)
Definition fileName (format : string) : string :=
  "vue-maplibre-gl." +:+ format +:+ ".js".

(** [assetFileNames]: the name of an asset may be undefined. *)
Definition assetFileNames (name : option string) : option string :=
  if bool_decide (name = Some "main.css") then Some "vue-maplibre-gl.css"
  else name.

End Build.

(** ** Kinds of popup calls, and further concrete components *)

Module Kinds.

(** Calls that construct the popup or hand it to the map or to a marker. *)
Definition attaches (c : Popup.call) : bool :=
  match c with
  | Popup.New _ | Popup.AddTo _ | Popup.MarkerSetPopup _ => true
  | _ => false
  end.

(** Calls that set the offset, the maximal width or the subpixel flag. *)
Definition on_settings (c : Popup.call) : bool :=
  match c with
  | Popup.New _ | Popup.SetOffset _ | Popup.SetMaxWidth _
  | Popup.SetSubpixelPositioning _ => true
  | _ => false
  end.

(** Calls that set the content. *)
Definition on_content (c : Popup.call) : bool :=
  match c with
  | Popup.New _ | Popup.SetText _ | Popup.SetDOMContent _ => true
  | _ => false
  end.

(** Calls that set the position. *)
Definition on_position (c : Popup.call) : bool :=
  match c with
  | Popup.New _ | Popup.SetLngLat _ => true
  | _ => false
  end.

(** A popup declared without coordinates. *)
Definition popupB : Popup.Props :=
  Popup.with_coordinates None Samples.popupA.



(** A layer anchored before the layer [labels]. *)
Definition layerB : Layer.Props :=
  {| Layer.layerId := "layerB";
     Layer.source := Some (Layer.SourceInline []);
     Layer.before := Some "labels";
     Layer.layout := None;
     Layer.paint := None |}.

End Kinds.

(** * Properties of the layer binding *)

Module LayerFacts.
Import Layer.

Lemma count_app p t1 t2 : count p (t1 ++ t2) = count p t1 + count p t2.
Proof. unfold count. by rewrite List.filter_app, length_app. Qed.

Lemma count_ons p layer evs :
  (∀ ev, p (On ev layer) = false) →
  count p (map (λ ev, On ev layer) evs) = 0.
Proof.
  intros Hp. unfold count.
  induction evs as [|ev evs IH]; simpl; [done|]. by rewrite Hp.
Qed.

Lemma count_offs p layer evs :
  (∀ ev, p (Off ev layer) = false) →
  count p (map (λ ev, Off ev layer) evs) = 0.
Proof.
  intros Hp. unfold count.
  induction evs as [|ev evs IH]; simpl; [done|]. by rewrite Hp.
Qed.

(** Attaching the forwarding listeners leaves the layers alone and appends
    one [On] per event. *)
Lemma registerLayerEvents_layers evs layer w :
  layers (registerLayerEvents evs layer w) = layers w.
Proof.
  unfold registerLayerEvents. revert w.
  induction evs as [|ev evs IH]; intros w; simpl; [done|]. by rewrite IH.
Qed.

Lemma registerLayerEvents_trace evs layer w :
  trace (registerLayerEvents evs layer w)
  = trace w ++ map (λ ev, On ev layer) evs.
Proof.
  unfold registerLayerEvents. revert w.
  induction evs as [|ev evs IH]; intros w; simpl.
  - by rewrite app_nil_r.
  - rewrite IH. simpl. by rewrite <- app_assoc.
Qed.

Lemma unregisterLayerEvents_layers evs layer w :
  layers (unregisterLayerEvents evs layer w) = layers w.
Proof.
  unfold unregisterLayerEvents. revert w.
  induction evs as [|ev evs IH]; intros w; simpl; [done|]. by rewrite IH.
Qed.

Lemma unregisterLayerEvents_trace evs layer w :
  trace (unregisterLayerEvents evs layer w)
  = trace w ++ map (λ ev, Off ev layer) evs.
Proof.
  unfold unregisterLayerEvents. revert w.
  induction evs as [|ev evs IH]; intros w; simpl.
  - by rewrite app_nil_r.
  - rewrite IH. simpl. by rewrite <- app_assoc.
Qed.

(** A listener that is not attached stays so while others are detached, and
    detaching the listener of [ev] leaves none for [ev]. *)
Lemma unregisterLayerEvents_keeps_out evs layer w l :
  l ∉ listeners w → l ∉ listeners (unregisterLayerEvents evs layer w).
Proof.
  unfold unregisterLayerEvents. revert w.
  induction evs as [|ev evs IH]; intros w Hl; simpl; [done|].
  apply IH. simpl. rewrite list_elem_of_In, List.filter_In, <- list_elem_of_In.
  tauto.
Qed.

Lemma unregisterLayerEvents_detaches evs layer w ev :
  ev ∈ evs → (ev, layer) ∉ listeners (unregisterLayerEvents evs layer w).
Proof.
  unfold unregisterLayerEvents. revert w.
  induction evs as [|ev' evs IH]; intros w Hin; simpl.
  - by apply elem_of_nil in Hin.
  - destruct (decide (ev = ev')) as [->|Hne].
    + apply (unregisterLayerEvents_keeps_out evs). simpl.
      rewrite list_elem_of_In, List.filter_In.
      intros [_ Hf]. by rewrite bool_decide_eq_true_2 in Hf.
    + apply IH. apply elem_of_cons in Hin. by destruct Hin.
Qed.

Lemma watch_callback_trace evs props sid il src w :
  trace (watch_callback evs props sid il src w)
  = trace w ++ callback_calls evs props sid il src.
Proof.
  unfold watch_callback, callback_calls. destruct (satisfied il src).
  - rewrite registerLayerEvents_trace. simpl. by rewrite <- app_assoc.
  - by rewrite app_nil_r.
Qed.

Lemma watch_callback_layers evs props sid il src w :
  layers (watch_callback evs props sid il src w)
  = if satisfied il src then {[ layerId props ]} ∪ layers w else layers w.
Proof.
  unfold watch_callback. destruct (satisfied il src); [|done].
  by rewrite registerLayerEvents_layers.
Qed.

Lemma count_callback_adds evs props sid il src :
  count is_addLayer (callback_calls evs props sid il src)
  = if satisfied il src then 1 else 0.
Proof.
  unfold callback_calls. destruct (satisfied il src); [|done].
  change (AddLayer ?o ?b :: ?t) with ([AddLayer o b] ++ t).
  rewrite count_app, count_ons; done.
Qed.

Lemma count_callback_removes evs props sid il src :
  count is_removeLayer (callback_calls evs props sid il src) = 0.
Proof.
  unfold callback_calls. destruct (satisfied il src); [|done].
  change (AddLayer ?o ?b :: ?t) with ([AddLayer o b] ++ t).
  rewrite count_app, count_ons; done.
Qed.

(** The gating condition, spelled out. *)
Lemma satisfied_iff il src :
  satisfied il src = true ↔ il = true ∧ (src = Some true ∨ src = None).
Proof.
  destruct il, src as [[]|]; simpl; split; try done; try tauto;
    intros [? [?|?]]; done.
Qed.

(** The teardown hook. *)
Lemma disposeLayer_layers evs layer w :
  layer ∉ layers (disposeLayer evs layer w).
Proof.
  unfold disposeLayer.
  destruct (bool_decide _) eqn:Hin; simpl.
  - rewrite elem_of_difference, elem_of_singleton. tauto.
  - by apply bool_decide_eq_false in Hin.
Qed.

Lemma disposeLayer_trace evs layer w :
  trace (disposeLayer evs layer w)
  = trace w ++ map (λ ev, Off ev layer) evs
      ++ (if bool_decide (layer ∈ layers w) then [RemoveLayer layer] else []).
Proof.
  unfold disposeLayer. rewrite unregisterLayerEvents_layers.
  case_bool_decide; simpl.
  - rewrite unregisterLayerEvents_trace. by rewrite <- app_assoc.
  - rewrite unregisterLayerEvents_trace. by rewrite app_nil_r.
Qed.

Lemma disposeLayer_listeners evs layer w ev :
  ev ∈ evs → (ev, layer) ∉ listeners (disposeLayer evs layer w).
Proof.
  intros Hin. unfold disposeLayer. case_bool_decide; simpl;
    by apply unregisterLayerEvents_detaches.
Qed.

(** Once unmounted, a binding reacts to nothing. *)
Lemma run_unmounted evs b w es :
  b_mounted b = false → run evs (b, w) es = (b, w).
Proof.
  intros Hb. unfold run.
  induction es as [|e es IH]; simpl; [done|].
  destruct e; simpl; rewrite Hb; simpl; apply IH.
Qed.

Lemma step_props evs s e :
  b_props (step evs s e).1 = b_props s.1
  ∧ b_sourceId (step evs s e).1 = b_sourceId s.1.
Proof.
  destruct s as [b w], e; simpl.
  - destruct (b_mounted b && _); done.
  - destruct (b_mounted b); done.
Qed.

Lemma run_cons evs s e es : run evs s (e :: es) = run evs (step evs s e) es.
Proof. done. Qed.

Lemma run_props evs es : ∀ s, b_props (run evs s es).1 = b_props s.1.
Proof.
  induction es as [|e es IH]; intros s; [done|].
  rewrite run_cons, IH. apply step_props.
Qed.

(** What a [setup] that did not return early has done. *)
Lemma setup_some evs props sid il src w b w1 :
  setup evs props sid il src w = (Some b, w1) →
  b = {| b_props := props; b_sourceId := sid;
         b_mounted := true; b_seen := (il, src) |}
  ∧ w1 = watch_callback evs props sid il src w.
Proof.
  unfold setup. destruct (negb _ && negb _); intros [= <- <-]; done.
Qed.

Lemma observations_unmounted seen es : observations false seen es = [].
Proof.
  revert seen. induction es as [|e es IH]; intros seen; [done|].
  destruct e; simpl; apply IH.
Qed.

(** Every observation that satisfies the gate adds one [AddLayer] call to
    the trace, and nothing else does. *)
Lemma run_count_adds evs es : ∀ b w,
  count is_addLayer (trace (run evs (b, w) es).2)
  = count is_addLayer (trace w)
    + length (List.filter sat (observations (b_mounted b) (b_seen b) es)).
Proof.
  induction es as [|e es IH]; intros b w.
  - simpl. lia.
  - rewrite run_cons. destruct e as [il src|]; simpl.
    + destruct (b_mounted b && negb (bool_decide ((il, src) = b_seen b))) eqn:Hfire.
      * rewrite IH. simpl.
        rewrite watch_callback_trace, count_app, count_callback_adds.
        unfold sat at 2. simpl. destruct (satisfied il src); cbn [length]; lia.
      * apply IH.
    + destruct (b_mounted b) eqn:Hb.
      * rewrite run_unmounted by done. simpl.
        rewrite observations_unmounted, disposeLayer_trace, !count_app.
        rewrite count_offs by done. case_bool_decide; unfold count; simpl; lia.
      * rewrite IH, Hb. done.
Qed.

(** While it is mounted the binding never removes its layer. *)
Lemma run_mounted evs es : ∀ b w,
  Unmount ∉ es → b_mounted (run evs (b, w) es).1 = b_mounted b.
Proof.
  induction es as [|e es IH]; intros b w Hes; [done|].
  rewrite run_cons. apply not_elem_of_cons in Hes as [Hne Hes].
  destruct e as [il src|]; [|done]. simpl.
  destruct (b_mounted b && negb (bool_decide ((il, src) = b_seen b)));
    by rewrite IH.
Qed.

(** The layer of a binding is registered exactly when the binding is still
    mounted and either the layer was there from the start or some
    observation satisfied the gate.  The side condition says that the
    teardown of an unmounted binding has run. *)
Lemma run_layers evs es : ∀ b w,
  (b_mounted b = false → layerId (b_props b) ∉ layers w) →
  layerId (b_props b) ∈ layers (run evs (b, w) es).2
  ↔ b_mounted (run evs (b, w) es).1 = true
    ∧ (layerId (b_props b) ∈ layers w
       ∨ ∃ o, o ∈ observations (b_mounted b) (b_seen b) es ∧ sat o = true).
Proof.
  induction es as [|e es IH]; intros b w Hinv.
  - simpl. split.
    + intros Hin. split; [|by left].
      destruct (b_mounted b); [done|]. by destruct Hinv.
    + intros [_ [Hin|(o & Ho & _)]]; [done|]. by apply elem_of_nil in Ho.
  - rewrite run_cons. destruct e as [il src|]; simpl.
    + destruct (b_mounted b && negb (bool_decide ((il, src) = b_seen b))) eqn:Hfire.
      * apply andb_true_iff in Hfire as [Hb _].
        match goal with
        | |- context [run evs (?b', ?w') es] => specialize (IH b' w')
        end.
        cbn [b_props b_mounted b_seen] in IH.
        rewrite IH by congruence.
        rewrite watch_callback_layers. unfold sat at 2. simpl.
        split; (intros [Hm Hor]; split; [done|]).
        -- destruct Hor as [Hin|(o & Ho & Hs)].
           ++ destruct (satisfied il src) eqn:Hsat.
              ** right. exists (il, src). split; [by left|done].
              ** by left.
           ++ right. exists o. split; [by right|done].
        -- destruct Hor as [Hin|(o & Ho & Hs)].
           ++ left. destruct (satisfied il src); [|done].
              apply elem_of_union. by right.
           ++ apply elem_of_cons in Ho as [->|Ho].
              ** left. unfold sat in Hs. simpl in Hs. rewrite Hs.
                 apply elem_of_union. left. by apply elem_of_singleton.
              ** right. by exists o.
      * by apply IH.
    + destruct (b_mounted b) eqn:Hb.
      * rewrite run_unmounted by done. simpl.
        rewrite observations_unmounted. split.
        -- intros Hin. by apply disposeLayer_layers in Hin.
        -- intros [[=] _].
      * specialize (IH b w). rewrite Hb in IH. apply IH. intros _. by apply Hinv.
Qed.

End LayerFacts.

(** * Claims about the layer binding *)

Section layer_claims.
Import Layer LayerFacts.

(** The events a layer forwards. *)
Variable evs : list string.

(** C3: at every observation of the pair (engine-ready flag [il], source
    readiness [src]) the callback issues the add-layer call exactly when [il]
    is true and [src] is true or undefined.  In particular a false [src]
    blocks creation, an undefined [src] counts as satisfied, and nothing is
    added while [il] is false. *)
Theorem C3_add_layer_exactly_at_gate (props : Props) (sid : option string)
    (il : bool) (src : option bool) (w : world) :
  (count is_addLayer (trace (watch_callback evs props sid il src w))
   = S (count is_addLayer (trace w))
   ↔ il = true ∧ (src = Some true ∨ src = None))
  ∧ (count is_addLayer (trace (watch_callback evs props sid il src w))
     = count is_addLayer (trace w)
     ↔ ¬ (il = true ∧ (src = Some true ∨ src = None)))
  ∧ watch_callback evs props sid il (Some false) w = w
  ∧ count is_addLayer (trace (watch_callback evs props sid true None w))
    = S (count is_addLayer (trace w))
  ∧ watch_callback evs props sid false src w = w.
Proof.
  rewrite !watch_callback_trace, !count_app, !count_callback_adds.
  rewrite <- satisfied_iff.
  repeat split.
  - destruct (satisfied il src); [done|lia].
  - intros ->. lia.
  - destruct (satisfied il src); [lia|done].
  - destruct (satisfied il src); [done|lia].
  - unfold watch_callback, satisfied. simpl. by rewrite andb_false_r.
  - simpl. lia.
Qed.

(** C5: when the pair already satisfies the gate at the time the watcher is
    set up, [setup] itself issues the add-layer call (and attaches the
    forwarding listeners): the initial notification is not missed. *)
Theorem C5_immediate_creation (props : Props) (sid : option string)
    (il : bool) (src : option bool) (w : world) :
  JS.truthy_opt JS.truthy_string sid = true
    ∨ JS.truthy_opt truthy_source (source props) = true →
  il = true →
  src = Some true ∨ src = None →
  ∃ b,
    (setup evs props sid il src w).1 = Some b
    ∧ b_mounted b = true
    ∧ trace (setup evs props sid il src w).2
      = trace w
        ++ AddLayer (genLayerOpts (layerId props) "hillshade" props sid)
                    (JS.or_else JS.truthy_string (before props) None)
           :: map (λ ev, On ev (layerId props)) evs
    ∧ count is_addLayer (trace (setup evs props sid il src w).2)
      = S (count is_addLayer (trace w))
    ∧ layerId props ∈ layers (setup evs props sid il src w).2.
Proof.
  intros Hres Hil Hsrc.
  assert (satisfied il src = true) as Hsat by (by apply satisfied_iff).
  assert (negb (JS.truthy_opt JS.truthy_string sid)
          && negb (JS.truthy_opt truthy_source (source props)) = false) as Hgo.
  { destruct Hres as [-> | ->]; simpl; [done|apply andb_false_r]. }
  unfold setup. rewrite Hgo. eexists. split; [done|]. split; [done|]. simpl.
  rewrite watch_callback_trace, watch_callback_layers, count_app,
    count_callback_adds.
  unfold callback_calls. rewrite Hsat. repeat split; [lia|].
  apply elem_of_union. left. by apply elem_of_singleton.
Qed.

(** C4: a layer component set up with neither an injected source id nor a
    source prop (both undefined, or empty) records the diagnostic and stops:
    the engine is left as it was, and whatever happens afterwards, nothing
    more is done, so no add-layer call is ever made. *)
Theorem C4_unresolved_source_aborts (props : Props) (sid : option string)
    (il : bool) (src : option bool) (w : world) (es : list event) :
  JS.truthy_opt JS.truthy_string sid = false →
  JS.truthy_opt truthy_source (source props) = false →
  (setup evs props sid il src w).1 = None
  ∧ trace (setup evs props sid il src w).2
    = trace w
      ++ [Warn "Hillshade Layer: layer must be used inside source tag or source prop must be set"]
  ∧ layers (setup evs props sid il src w).2 = layers w
  ∧ listeners (setup evs props sid il src w).2 = listeners w
  ∧ run_component evs (setup evs props sid il src w) es
    = setup evs props sid il src w
  ∧ count is_addLayer (trace (run_component evs (setup evs props sid il src w) es).2)
    = count is_addLayer (trace w).
Proof.
  intros Hsid Hsrc. unfold setup. rewrite Hsid, Hsrc. simpl.
  assert (∀ w', run_component evs (None, w') es = (None, w')) as Hrun.
  { intros w'. unfold run_component. induction es as [|e es' IH]; [done|].
    simpl. apply IH. }
  rewrite Hrun. simpl. repeat split.
  rewrite count_app. unfold count. simpl. lia.
Qed.

(** C1, as the code has it: the callback does not look at the engine.  An
    add-layer call is issued at every observation at which the engine-ready
    flag is true and the source readiness is true or undefined, whether the
    layer is present or not; the number of add-layer calls is the number of
    such observations, the immediate one of [setup] included. *)
Theorem C1_one_add_per_satisfied_observation (props : Props)
    (sid : option string) (il : bool) (src : option bool) (w : world)
    (b : binding) (w1 : world) (es : list event) :
  setup evs props sid il src w = (Some b, w1) →
  count is_addLayer (trace (run evs (b, w1) es).2)
  = count is_addLayer (trace w)
    + length (List.filter sat ((il, src) :: observations true (il, src) es)).
Proof.
  intros [-> ->]%setup_some.
  rewrite run_count_adds. simpl.
  rewrite watch_callback_trace, count_app, count_callback_adds.
  unfold sat at 2. simpl. destruct (satisfied il src); cbn [length]; lia.
Qed.

(** C2, as the code has it: starting from an engine in which the layer is
    absent, the layer is present exactly when the component is still mounted
    and at some observation since [setup] (the immediate one included) the
    engine-ready flag was true and the source readiness true or undefined.
    A later flip of the source readiness to false does not remove it. *)
Theorem C2_present_iff_mounted_and_gate_was_satisfied (props : Props)
    (sid : option string) (il : bool) (src : option bool) (w : world)
    (b : binding) (w1 : world) (es : list event) :
  layerId props ∉ layers w →
  setup evs props sid il src w = (Some b, w1) →
  layerId props ∈ layers (run evs (b, w1) es).2
  ↔ b_mounted (run evs (b, w1) es).1 = true
    ∧ ∃ o, o ∈ (il, src) :: observations true (il, src) es
           ∧ o.1 = true ∧ (o.2 = Some true ∨ o.2 = None).
Proof.
  intros Hfresh [-> ->]%setup_some.
  match goal with
  | |- context [run evs (?b', ?w') es] =>
      pose proof (run_layers evs es b' w') as Hrun
  end.
  cbn [b_props b_mounted b_seen] in Hrun. rewrite Hrun by done. clear Hrun.
  rewrite watch_callback_layers.
  split; (intros [Hm Hor]; split; [done|]).
  - destruct Hor as [Hin|(o & Ho & Hs)].
    + exists (il, src). split; [by left|]. simpl.
      apply satisfied_iff. destruct (satisfied il src); [done|].
      by destruct Hfresh.
    + exists o. split; [by right|]. by apply satisfied_iff.
  - destruct Hor as (o & Ho & Hs). apply satisfied_iff in Hs.
    apply elem_of_cons in Ho as [->|Ho].
    + left. simpl in Hs. rewrite Hs. apply elem_of_union. left.
      by apply elem_of_singleton.
    + right. by exists o.
Qed.

(** C6: unmounting a binding whose layer was created issues exactly one
    remove-layer call, leaves the layer absent and none of the forwarded
    listeners attached, whatever the readiness values last observed. *)
Theorem C6_unmount_removes_created_layer (props : Props)
    (sid : option string) (il : bool) (src : option bool) (w : world)
    (b : binding) (w1 : world) (es : list event) :
  setup evs props sid il src w = (Some b, w1) →
  Unmount ∉ es →
  (∃ o, o ∈ (il, src) :: observations true (il, src) es
        ∧ o.1 = true ∧ (o.2 = Some true ∨ o.2 = None)) →
  count is_removeLayer (trace (step evs (run evs (b, w1) es) Unmount).2)
  = S (count is_removeLayer (trace (run evs (b, w1) es).2))
  ∧ (layerId props ∉ layers (step evs (run evs (b, w1) es) Unmount).2)
  ∧ (∀ ev, ev ∈ evs →
       (ev, layerId props) ∉ listeners (step evs (run evs (b, w1) es) Unmount).2)
  ∧ b_mounted (step evs (run evs (b, w1) es) Unmount).1 = false.
Proof.
  intros [-> ->]%setup_some Hes (o & Ho & Hs). apply satisfied_iff in Hs.
  match goal with
  | |- context [run evs (?b', ?w') es] =>
      pose proof (run_layers evs es b' w') as Hin;
      pose proof (run_mounted evs es b' w' Hes) as Hm;
      pose proof (run_props evs es (b', w')) as Hp;
      destruct (run evs (b', w') es) as [b2 w2]
  end.
  cbn [b_props b_mounted b_seen fst snd] in Hin, Hm, Hp.
  assert (layerId props ∈ layers w2) as Hpresent.
  { apply Hin; [done|]. split; [done|].
    apply elem_of_cons in Ho as [->|Ho].
    - left. rewrite watch_callback_layers. simpl in Hs. rewrite Hs.
      apply elem_of_union. left. by apply elem_of_singleton.
    - right. by exists o. }
  simpl. rewrite Hm, Hp. simpl. repeat split.
  - rewrite disposeLayer_trace, !count_app, count_offs by done.
    rewrite bool_decide_eq_true_2 by done. unfold count. simpl. lia.
  - apply disposeLayer_layers.
  - intros ev Hev. by apply disposeLayer_listeners.
Qed.

End layer_claims.

(** ** The layer claims on concrete components *)

Section layer_instances.
Import Layer LayerFacts Samples.

Lemma C5_witness :
  ∃ b,
    (setup events layerA None true (Some true) fresh).1 = Some b
    ∧ b_mounted b = true
    ∧ trace (setup events layerA None true (Some true) fresh).2
      = trace fresh
        ++ AddLayer (genLayerOpts (layerId layerA) "hillshade" layerA None)
                    (JS.or_else JS.truthy_string (before layerA) None)
           :: map (λ ev, On ev (layerId layerA)) events
    ∧ count is_addLayer (trace (setup events layerA None true (Some true) fresh).2)
      = S (count is_addLayer (trace fresh))
    ∧ layerId layerA ∈ layers (setup events layerA None true (Some true) fresh).2.
Proof.
  apply (C5_immediate_creation events layerA None true (Some true) fresh).
  - right. reflexivity.
  - reflexivity.
  - left. reflexivity.
Defined.

Lemma C4_witness :
  (setup events orphan None true None fresh).1 = None
  ∧ trace (setup events orphan None true None fresh).2
    = trace fresh
      ++ [Warn "Hillshade Layer: layer must be used inside source tag or source prop must be set"]
  ∧ layers (setup events orphan None true None fresh).2 = layers fresh
  ∧ listeners (setup events orphan None true None fresh).2 = listeners fresh
  ∧ run_component events (setup events orphan None true None fresh)
      [Flush true (Some true); Unmount]
    = setup events orphan None true None fresh
  ∧ count is_addLayer
      (trace (run_component events (setup events orphan None true None fresh)
                [Flush true (Some true); Unmount]).2)
    = count is_addLayer (trace fresh).
Proof.
  apply (C4_unresolved_source_aborts events orphan None true None fresh
           [Flush true (Some true); Unmount]); reflexivity.
Defined.

(** The engine-ready flag stays true while the source readiness goes false,
    true, false, true: the second true issues a second add-layer call although
    the layer of the first one is still registered and was never removed. *)
Lemma C1_counterexample :
  setup events layerA None true (Some false) fresh
  = (Some (bindingA true (Some false)), fresh)
  ∧ layerId layerA
    ∈ layers (run events (bindingA true (Some false), fresh)
                [Flush true (Some true); Flush true (Some false)]).2
  ∧ count is_removeLayer
      (trace (run events (bindingA true (Some false), fresh)
                [Flush true (Some true); Flush true (Some false);
                 Flush true (Some true)]).2) = 0
  ∧ ¬ (count is_addLayer
         (trace (run events (bindingA true (Some false), fresh)
                   [Flush true (Some true); Flush true (Some false);
                    Flush true (Some true)]).2) ≤ 1).
Proof.
  split; [reflexivity|]. split; [|split].
  - apply (bool_decide_unpack _). vm_compute. exact I.
  - vm_compute. reflexivity.
  - vm_compute. lia.
Qed.

Lemma C1_witness :
  count is_addLayer
    (trace (run events (bindingA true (Some false), fresh)
              [Flush true (Some true); Flush true (Some false);
               Flush true (Some true)]).2)
  = count is_addLayer (trace fresh)
    + length (List.filter sat
                ((true, Some false)
                 :: observations true (true, Some false)
                      [Flush true (Some true); Flush true (Some false);
                       Flush true (Some true)])).
Proof.
  apply (C1_one_add_per_satisfied_observation events layerA None true
           (Some false) fresh).
  reflexivity.
Defined.

(** The source readiness flips back to false after the layer was created:
    the component is mounted, the pair last observed does not satisfy the
    gate, and the layer is still present. *)
Lemma C2_counterexample :
  setup events layerA None true (Some true) fresh
  = (Some (bindingA true (Some true)),
     watch_callback events layerA None true (Some true) fresh)
  ∧ ¬ (layerId layerA
       ∈ layers (run events
                   (bindingA true (Some true),
                    watch_callback events layerA None true (Some true) fresh)
                   [Flush true (Some false)]).2
       ↔ (b_seen (run events
                    (bindingA true (Some true),
                     watch_callback events layerA None true (Some true) fresh)
                    [Flush true (Some false)]).1).1 = true
         ∧ ((b_seen (run events
                       (bindingA true (Some true),
                        watch_callback events layerA None true (Some true) fresh)
                       [Flush true (Some false)]).1).2 = Some true
            ∨ (b_seen (run events
                         (bindingA true (Some true),
                          watch_callback events layerA None true (Some true) fresh)
                         [Flush true (Some false)]).1).2 = None)
         ∧ b_mounted (run events
                        (bindingA true (Some true),
                         watch_callback events layerA None true (Some true) fresh)
                        [Flush true (Some false)]).1 = true).
Proof.
  split; [reflexivity|].
  intros [Hpresent _].
  assert (layerId layerA
          ∈ layers (run events
                      (bindingA true (Some true),
                       watch_callback events layerA None true (Some true) fresh)
                      [Flush true (Some false)]).2) as Hin.
  { apply (bool_decide_unpack _). vm_compute. exact I. }
  destruct (Hpresent Hin) as (_ & [Hsrc|Hsrc] & _); vm_compute in Hsrc;
    discriminate Hsrc.
Qed.

Lemma C2_witness :
  layerId layerA
  ∈ layers (run events
              (bindingA true (Some true),
               watch_callback events layerA None true (Some true) fresh)
              [Flush true (Some false)]).2
  ↔ b_mounted (run events
                 (bindingA true (Some true),
                  watch_callback events layerA None true (Some true) fresh)
                 [Flush true (Some false)]).1 = true
    ∧ ∃ o, o ∈ (true, Some true)
               :: observations true (true, Some true) [Flush true (Some false)]
           ∧ o.1 = true ∧ (o.2 = Some true ∨ o.2 = None).
Proof.
  apply (C2_present_iff_mounted_and_gate_was_satisfied events layerA None true
           (Some true) fresh).
  - apply (bool_decide_unpack _). vm_compute. exact I.
  - reflexivity.
Defined.

Lemma C6_witness :
  count is_removeLayer
    (trace (step events
              (run events
                 (bindingA true (Some true),
                  watch_callback events layerA None true (Some true) fresh)
                 [Flush true (Some false)]) Unmount).2)
  = S (count is_removeLayer
         (trace (run events
                   (bindingA true (Some true),
                    watch_callback events layerA None true (Some true) fresh)
                   [Flush true (Some false)]).2))
  ∧ (layerId layerA
     ∉ layers (step events
                 (run events
                    (bindingA true (Some true),
                     watch_callback events layerA None true (Some true) fresh)
                    [Flush true (Some false)]) Unmount).2)
  ∧ (∀ ev, ev ∈ events →
       (ev, layerId layerA)
       ∉ listeners (step events
                      (run events
                         (bindingA true (Some true),
                          watch_callback events layerA None true (Some true) fresh)
                         [Flush true (Some false)]) Unmount).2)
  ∧ b_mounted (step events
                 (run events
                    (bindingA true (Some true),
                     watch_callback events layerA None true (Some true) fresh)
                    [Flush true (Some false)]) Unmount).1 = false.
Proof.
  apply (C6_unmount_removes_created_layer events layerA None true (Some true)
           fresh).
  - reflexivity.
  - apply (bool_decide_unpack _). vm_compute. exact I.
  - exists (true, Some true). split; [left|]. split; [reflexivity|].
    left. reflexivity.
Defined.

(** The engine-ready flag is false at mount and no source readiness is
    tracked: nothing is added until the flag flips, then the layer is added
    once, with the forwarding listeners. *)
Example waiting_then_created :
  setup events layerA None false None fresh
  = (Some (bindingA false None), fresh)
  ∧ trace (run events (bindingA false None, fresh) [Flush true None]).2
    = [AddLayer {| lo_id := "layerA"; lo_type := "hillshade";
                   lo_source := Some (SourceName "srcX");
                   lo_layout := None; lo_paint := None |} None;
       On "click" "layerA"; On "mouseenter" "layerA"; On "mouseleave" "layerA"].
Proof. split; reflexivity. Qed.

(** A flush that changes nothing is not an observation. *)
Example unchanged_flush_is_silent :
  observations true (true, Some true)
    [Flush true (Some true); Flush true (Some false); Flush true (Some false)]
  = [(true, Some false)].
Proof. reflexivity. Qed.

(** Unmounting before the gate was ever satisfied removes nothing. *)
Example unmount_before_creation :
  count is_removeLayer
    (trace (run events (bindingA false (Some false), fresh)
              [Flush true (Some false); Unmount]).2) = 0.
Proof. vm_compute. reflexivity. Qed.

End layer_instances.

(** * Properties of the popup component *)

Module PopupFacts.
Import Popup.

Lemma execs_app p t1 t2 : execs p (t1 ++ t2) = execs (execs p t1) t2.
Proof. apply foldl_app. Qed.

(** Calls that are not about listeners leave the listeners alone. *)
Lemma exec_handlers p c :
  on_handlers c = false → p_handlers (exec p c) = p_handlers p.
Proof. by destruct c. Qed.

Lemma execs_handlers t : ∀ p,
  forallb (λ c, negb (on_handlers c)) t = true →
  p_handlers (execs p t) = p_handlers p.
Proof.
  induction t as [|c t IH]; intros p Ht; [done|].
  simpl in Ht. apply andb_true_iff in Ht as [Hc Ht].
  unfold execs. simpl. fold (execs (exec p c) t).
  rewrite IH by done. apply exec_handlers. by apply negb_true_iff.
Qed.

(** Only the unmount hooks detach listeners. *)
Lemma react_live_handlers i ev :
  ev ≠ BeforeUnmount →
  forallb (λ c, negb (on_handlers c)) (react i ev).2 = true.
Proof.
  intros Hev. destruct ev; try done; simpl; destruct (i_live i); simpl;
    try done; try (by case_bool_decide).
  - by destruct v.
  - case_bool_decide; [done|]. unfold on_className.
    destruct (className (i_props i)) as [[|??]|], v as [[|??]|]; done.
  - unfold on_mounted. destruct root; [|done].
    by destruct (JS.truthy_opt JS.truthy_string (text (i_props i))).
Qed.

Lemma react_live i ev :
  ev ≠ BeforeUnmount → i_live (react i ev).1 = i_live i.
Proof.
  intros Hev. destruct ev; try done; simpl; destruct (i_live i) eqn:E; done.
Qed.

Lemma reacts_app i es1 es2 :
  reacts i (es1 ++ es2)
  = ((reacts (reacts i es1).1 es2).1,
     (reacts i es1).2 ++ (reacts (reacts i es1).1 es2).2).
Proof.
  revert i. induction es1 as [|e es1 IH]; intros i; simpl.
  - by destruct (reacts i es2).
  - destruct (react i e) as [i1 t1]. rewrite IH.
    destruct (reacts i1 es1) as [i2 t2]. simpl.
    destruct (reacts i2 es2) as [i3 t3]. simpl. by rewrite app_assoc.
Qed.

Lemma reacts_live es : ∀ i,
  BeforeUnmount ∉ es → i_live (reacts i es).1 = i_live i.
Proof.
  induction es as [|e es IH]; intros i Hes; [done|].
  apply not_elem_of_cons in Hes as [Hne Hes]. simpl.
  pose proof (react_live i e (not_eq_sym Hne)) as Hl.
  destruct (react i e) as [i1 t1]. specialize (IH i1 Hes).
  destruct (reacts i1 es) as [i2 t2]. simpl in *. congruence.
Qed.

Lemma reacts_handlers es : ∀ i,
  BeforeUnmount ∉ es →
  forallb (λ c, negb (on_handlers c)) (reacts i es).2 = true.
Proof.
  induction es as [|e es IH]; intros i Hes; [done|].
  apply not_elem_of_cons in Hes as [Hne Hes]. simpl.
  pose proof (react_live_handlers i e (not_eq_sym Hne)) as Hq.
  destruct (react i e) as [i1 t1]. specialize (IH i1 Hes).
  destruct (reacts i1 es) as [i2 t2]. simpl in *.
  rewrite forallb_app. by rewrite Hq, IH.
Qed.

(** Right after [setup] the popup carries the [open] and [close]
    listeners. *)
Lemma setup_handlers props map marker :
  p_handlers (execs blank (setup props map marker).2)
  = [("open", Emitter "open"); ("close", Emitter "close")].
Proof.
  unfold setup. cbn [snd].
  change ([New props] ++ ?t) with (New props :: t).
  unfold execs. cbn [foldl]. fold (execs (exec blank (New props))).
  rewrite !app_assoc, <- (app_assoc _ (emitEvent_on "open")), execs_app.
  unfold execs at 1. simpl. unfold set_handlers. simpl.
  rewrite execs_handlers; [done|].
  rewrite forallb_app. apply andb_true_iff. split.
  - unfold attach. destruct marker as [[m|]|], (coordinates props), map; done.
  - unfold initial_text. by destruct (text props) as [[|a s]|].
Qed.

Lemma life_snoc props map marker es e :
  life props map marker (es ++ [e])
  = life props map marker es
    ++ (react (reacts (setup props map marker).1 es).1 e).2.
Proof.
  unfold life. destruct (setup props map marker) as [i0 t0]. simpl.
  rewrite reacts_app. simpl.
  destruct (react (reacts i0 es).1 e) as [i1 t1]. simpl.
  by rewrite app_nil_r, app_assoc.
Qed.

Lemma life_handlers props map marker es :
  BeforeUnmount ∉ es →
  p_handlers (execs blank (life props map marker es))
  = [("open", Emitter "open"); ("close", Emitter "close")].
Proof.
  intros Hes. unfold life.
  pose proof (setup_handlers props map marker) as Hs.
  destruct (setup props map marker) as [i0 t0]. simpl in *.
  rewrite execs_app, execs_handlers; [done|]. by apply reacts_handlers.
Qed.





End PopupFacts.

(** * Claims about the popup component *)

Section popup_claims.
Import Popup PopupFacts.

(** C7: the component exposes [remove()], which calls [popup.remove()] and
    takes the popup off the map; when the component is unmounted the [open]
    and [close] listeners are detached and the popup is removed. *)
Theorem C7_remove_exposed_and_unmount_cleans (props : Props)
    (map : option (option map_id)) (marker : option (option marker_id))
    (es : list event) :
  BeforeUnmount ∉ es →
  (∀ i, react i CallRemove = (i, [Remove]))
  ∧ life props map marker (es ++ [CallRemove])
    = life props map marker es ++ [Remove]
  ∧ p_map (execs blank (life props map marker (es ++ [CallRemove]))) = None
  ∧ life props map marker (es ++ [BeforeUnmount])
    = life props map marker es
      ++ [OffEv "open" (Emitter "open"); OffEv "close" (Emitter "close"); Remove]
  ∧ p_map (execs blank (life props map marker (es ++ [BeforeUnmount]))) = None
  ∧ p_handlers (execs blank (life props map marker (es ++ [BeforeUnmount]))) = [].
Proof.
  intros Hes.
  assert (life props map marker (es ++ [BeforeUnmount])
          = life props map marker es
            ++ [OffEv "open" (Emitter "open"); OffEv "close" (Emitter "close");
                Remove]) as Hunmount.
  { rewrite life_snoc. f_equal. simpl.
    rewrite reacts_live by done. reflexivity. }
  split; [done|]. split; [apply life_snoc|]. split.
  { rewrite life_snoc, execs_app. reflexivity. }
  split; [done|]. rewrite Hunmount, execs_app.
  pose proof (life_handlers props map marker es Hes) as Hh.
  destruct (execs blank (life props map marker es)) as [? ? ? ? ? ? ? hs].
  simpl in Hh. subst hs. split; reflexivity.
Qed.

(** C8: inside a marker (a marker reference is injected and holds a marker)
    the popup is handed to the marker with [setPopup] and [setup] never adds
    it to the map, whatever the coordinates; [setup] calls [addTo] exactly
    when no marker is there and both the coordinates and a map reference
    are, and then [setLngLat] comes right before [addTo]. *)
Theorem C8_marker_takes_precedence (props : Props)
    (map : option (option map_id)) (marker : option (option marker_id)) :
  (∀ m, attach props map (Some (Some m)) = [MarkerSetPopup m]
        ∧ existsb is_setPopup (setup props map (Some (Some m))).2 = true
        ∧ existsb is_addTo (setup props map (Some (Some m))).2 = false)
  ∧ (existsb is_addTo (setup props map marker).2 = true
     ↔ (marker = None ∨ marker = Some None)
       ∧ ∃ c mref, coordinates props = Some c ∧ map = Some mref)
  ∧ (∀ c mref,
       attach (with_coordinates (Some c) props) (Some mref) None
       = [SetLngLat c; AddTo mref]
       ∧ attach (with_coordinates (Some c) props) (Some mref) (Some None)
         = [SetLngLat c; AddTo mref]).
Proof.
  assert (∀ t : list call,
    existsb is_addTo (initial_text props ++ t) = existsb is_addTo t) as Htext.
  { intros t. unfold initial_text. by destruct (text props) as [[|a s]|]. }
  split; [|split].
  - intros m. split; [done|]. unfold setup. simpl. rewrite Htext. done.
  - unfold setup, attach. simpl.
    destruct marker as [[m|]|], (coordinates props) as [c|], map as [mref|];
      simpl; rewrite ?Htext; simpl; split; try done;
      try (intros [[?|?] (c' & mref' & ? & ?)]; done);
      try (intros _; split; [by (left + right)|by eexists _, _]).
  - intros c mref. done.
Qed.


(** C10: when the [text] prop is cleared the text of the popup is set to the
    empty string, and when it changes to a string the text is set to exactly
    that string. *)
Theorem C10_text_follows_prop (i : instance) (v : option string) (p : popup) :
  i_live i = true →
  v ≠ text (i_props i) →
  (react i (PropText v)).2
  = [SetText match v with Some s => s | None => EmptyString end]
  ∧ p_content (execs p (react i (PropText v)).2)
    = TextContent match v with Some s => s | None => EmptyString end.
Proof.
  intros Hlive Hchg.
  assert (JS.or_string v EmptyString
          = match v with Some s => s | None => EmptyString end) as Hor.
  { by destruct v as [[|a s]|]. }
  simpl. rewrite Hlive. simpl. rewrite bool_decide_eq_false_2 by done.
  unfold on_text. rewrite Hor. done.
Qed.

End popup_claims.

(** ** The popup claims on a concrete component *)

Section popup_instances.
Import Popup PopupFacts Samples Kinds.

Lemma C7_witness :
  (∀ i, react i CallRemove = (i, [Remove]))
  ∧ life popupA (Some (Some 1)) None ([PropText None] ++ [CallRemove])
    = life popupA (Some (Some 1)) None [PropText None] ++ [Remove]
  ∧ p_map (execs blank
             (life popupA (Some (Some 1)) None ([PropText None] ++ [CallRemove])))
    = None
  ∧ life popupA (Some (Some 1)) None ([PropText None] ++ [BeforeUnmount])
    = life popupA (Some (Some 1)) None [PropText None]
      ++ [OffEv "open" (Emitter "open"); OffEv "close" (Emitter "close"); Remove]
  ∧ p_map (execs blank
             (life popupA (Some (Some 1)) None ([PropText None] ++ [BeforeUnmount])))
    = None
  ∧ p_handlers (execs blank
                  (life popupA (Some (Some 1)) None
                     ([PropText None] ++ [BeforeUnmount])))
    = [].
Proof.
  apply (C7_remove_exposed_and_unmount_cleans popupA (Some (Some 1)) None
           [PropText None]).
  apply (bool_decide_unpack _). vm_compute. exact I.
Defined.



Lemma C10_witness :
  (react instanceA (PropText None)).2
  = [SetText match @None string with Some s => s | None => EmptyString end]
  ∧ p_content (execs blank (react instanceA (PropText None)).2)
    = TextContent match @None string with Some s => s | None => EmptyString end.
Proof.
  apply (C10_text_follows_prop instanceA None blank).
  - reflexivity.
  - discriminate.
Defined.

(** A popup outside a marker, from [setup] to unmount. *)
Example popup_life :
  life popupA (Some (Some 7)) None
    [PropClassName (Some "b"); PropText None; BeforeUnmount]
  = [New popupA; SetLngLat (10, 20)%Z; AddTo (Some 7); SetText "hello";
     OnEv "open" (Emitter "open"); OnEv "close" (Emitter "close");
     RemoveClassName "a"; AddClassName "b"; SetText EmptyString;
     OffEv "open" (Emitter "open"); OffEv "close" (Emitter "close"); Remove].
Proof. reflexivity. Qed.

(** The same popup inside a marker. *)
Example popup_in_marker :
  (setup popupA (Some (Some 7)) (Some (Some 3))).2
  = [New popupA; MarkerSetPopup 3; SetText "hello";
     OnEv "open" (Emitter "open"); OnEv "close" (Emitter "close")].
Proof. reflexivity. Qed.

End popup_instances.

(** * Further properties: the build configuration *)

Module BuildFacts.
Import Build.

Lemma append_cons a s t : String a s +:+ t = String a (s +:+ t).
Proof. reflexivity. Qed.

Lemma append_length s t :
  String.length (s +:+ t) = String.length s + String.length t.
Proof.
  induction s as [|a s IH]; [done|].
  rewrite append_cons. simpl. by rewrite IH.
Qed.

(** Appending the same suffix to different strings gives different
    strings. *)
Lemma append_inj_r t : ∀ s1 s2, s1 +:+ t = s2 +:+ t → s1 = s2.
Proof.
  induction s1 as [|a s1 IH]; intros [|b s2] H; [done| | |].
  - apply (f_equal String.length) in H.
    rewrite !append_length in H. simpl in H. lia.
  - apply (f_equal String.length) in H.
    rewrite !append_length in H. simpl in H. lia.
  - rewrite !append_cons in H. injection H as -> H. f_equal. by apply IH.
Qed.

Lemma fileName_not_css f : fileName f ≠ "vue-maplibre-gl.css".
Proof.
  unfold fileName. intros H.
  change "vue-maplibre-gl.css" with ("vue-maplibre-gl." +:+ "css") in H.
  apply (inj _) in H.
  apply (f_equal String.length) in H as Hlen.
  rewrite append_length in Hlen. simpl in Hlen.
  destruct f as [|a f]; [done|]. simpl in Hlen. lia.
Qed.

Lemma fileName_not_main f : fileName f ≠ "main.css".
Proof. unfold fileName. intros H. vm_compute in H. discriminate H. Qed.

End BuildFacts.

Section build_extras.
Import Build BuildFacts.

(** X1: the bundles of two different formats never share a file name. *)
Theorem X1_fileName_injective (f1 f2 : string) :
  f1 ≠ f2 → fileName f1 ≠ fileName f2.
Proof.
  intros Hne H. apply Hne. unfold fileName in H.
  apply (inj _) in H. by apply append_inj_r in H.
Qed.

(** X2: renaming assets is idempotent, never yields [main.css], passes an
    undefined name through, and maps exactly two names to the stylesheet
    name: [main.css] and the stylesheet name itself. *)
Theorem X2_assetFileNames_shape (name : option string) :
  assetFileNames (assetFileNames name) = assetFileNames name
  ∧ assetFileNames name ≠ Some "main.css"
  ∧ assetFileNames None = None
  ∧ (assetFileNames name = Some "vue-maplibre-gl.css"
     ↔ name = Some "main.css" ∨ name = Some "vue-maplibre-gl.css").
Proof.
  unfold assetFileNames. repeat split.
  - repeat case_bool_decide; congruence.
  - case_bool_decide; congruence.
  - case_bool_decide; [by left|by right].
  - intros [-> | ->]; reflexivity.
Qed.

(** X3: no asset is renamed onto a bundle: an asset gets the file name of
    the bundle of some format only if that was its name already. *)
Theorem X3_assets_never_renamed_onto_a_bundle (name : option string)
    (format : string) :
  assetFileNames name = Some (fileName format)
  ↔ name = Some (fileName format).
Proof.
  unfold assetFileNames. case_bool_decide as Hn.
  - subst name. split; intros H; exfalso.
    + apply (fileName_not_css format). congruence.
    + apply (fileName_not_main format). congruence.
  - done.
Qed.

End build_extras.

Lemma X1_witness : Build.fileName "es" ≠ Build.fileName "cjs".
Proof. apply (X1_fileName_injective "es" "cjs"). discriminate. Defined.

(** * Further properties: the layer binding *)

Module LayerMoreFacts.
Import Layer LayerFacts.

Lemma count_callback_warns evs props sid il src :
  count is_warn (callback_calls evs props sid il src) = 0.
Proof.
  unfold callback_calls. destruct (satisfied il src); [|done].
  change (AddLayer ?o ?b :: ?t) with ([AddLayer o b] ++ t).
  rewrite count_app, count_ons; done.
Qed.

(** While mounted a binding removes nothing, warns about nothing, and
    leaves the layers of others alone. *)
Lemma run_frame evs es : ∀ b w,
  Unmount ∉ es →
  count is_removeLayer (trace (run evs (b, w) es).2)
  = count is_removeLayer (trace w)
  ∧ count is_warn (trace (run evs (b, w) es).2) = count is_warn (trace w)
  ∧ ∀ id, id ≠ layerId (b_props b) →
          id ∈ layers (run evs (b, w) es).2 ↔ id ∈ layers w.
Proof.
  induction es as [|e es IH]; intros b w Hes; [done|].
  apply not_elem_of_cons in Hes as [Hne Hes].
  rewrite run_cons. destruct e as [il src|]; [|done]. simpl.
  destruct (b_mounted b && negb (bool_decide ((il, src) = b_seen b)));
    [|by apply IH].
  match goal with
  | |- context [run evs (?b', ?w') es] => specialize (IH b' w' Hes)
  end.
  cbn [b_props b_mounted b_seen] in IH. destruct IH as (Hr & Hw & Hl).
  rewrite Hr, Hw, watch_callback_trace, !count_app.
  rewrite count_callback_removes, count_callback_warns.
  repeat split; [lia|lia| |].
  - intros Hin. apply Hl in Hin; [|done].
    rewrite watch_callback_layers in Hin.
    destruct (satisfied il src); [|done].
    apply elem_of_union in Hin as [Hin|Hin]; [|done].
    by apply elem_of_singleton in Hin.
  - intros Hin. apply Hl; [done|]. rewrite watch_callback_layers.
    destruct (satisfied il src); [|done]. apply elem_of_union. by right.
Qed.

(** Every add-layer call of a run that was not in the trace before carries
    the arguments the callback computes from the props. *)
Lemma run_add_arguments evs es : ∀ b w o a,
  AddLayer o a ∈ trace (run evs (b, w) es).2 →
  AddLayer o a ∈ trace w
  ∨ (o = genLayerOpts (layerId (b_props b)) "hillshade" (b_props b) (b_sourceId b)
     ∧ a = JS.or_else JS.truthy_string (before (b_props b)) None).
Proof.
  induction es as [|e es IH]; intros b w o a Hin; [by left|].
  rewrite run_cons in Hin. destruct e as [il src|]; simpl in Hin.
  - destruct (b_mounted b && negb (bool_decide ((il, src) = b_seen b)));
      [|by apply IH].
    apply IH in Hin. cbn [b_props b_sourceId] in Hin.
    destruct Hin as [Hin|Hin]; [|by right].
    rewrite watch_callback_trace in Hin.
    apply elem_of_app in Hin as [Hin|Hin]; [by left|].
    unfold callback_calls in Hin. destruct (satisfied il src).
    + apply elem_of_cons in Hin as [[= -> ->]|Hin]; [by right|].
      apply list_elem_of_fmap in Hin as (ev & [=] & _).
    + by apply elem_of_nil in Hin.
  - destruct (b_mounted b) eqn:Hb; [|by apply IH].
    rewrite run_unmounted in Hin by done. simpl in Hin.
    rewrite disposeLayer_trace in Hin.
    apply elem_of_app in Hin as [Hin|Hin]; [by left|].
    apply elem_of_app in Hin as [Hin|Hin].
    + apply list_elem_of_fmap in Hin as (ev & [=] & _).
    + case_bool_decide; [|by apply elem_of_nil in Hin].
      by apply list_elem_of_singleton in Hin.
Qed.

End LayerMoreFacts.

Section layer_extras.
Import Layer LayerFacts LayerMoreFacts.

(** The events a layer forwards. *)
Variable evs : list string.

(** X4: [setup] returns early exactly when both the injected source id and
    the source prop are undefined or the empty string (an inline source
    specification always resolves), and the diagnostic is recorded in that
    case and in no other. *)
Theorem X4_source_resolution (props : Props) (sid : option string)
    (il : bool) (src : option bool) (w : world) :
  ((setup evs props sid il src w).1 = None
   ↔ (sid = None ∨ sid = Some EmptyString)
     ∧ (source props = None ∨ source props = Some (SourceName EmptyString)))
  ∧ count is_warn (trace (setup evs props sid il src w).2)
    = count is_warn (trace w)
      + match (setup evs props sid il src w).1 with
        | None => 1
        | Some _ => 0
        end.
Proof.
  unfold setup.
  destruct sid as [[|c s]|], (source props) as [[[|c' s']|spec]|]; simpl;
    rewrite ?watch_callback_trace, ?count_app, ?count_callback_warns;
    (split; [intuition congruence|unfold count; simpl; lia]).
Qed.

(** X5: as long as the component is mounted, whatever the readiness values
    do, the binding issues no remove-layer call and no diagnostic, and the
    layers of other ids stay exactly as they are. *)
Theorem X5_mounted_binding_only_adds (props : Props) (sid : option string)
    (il : bool) (src : option bool) (w : world) (b : binding) (w1 : world)
    (es : list event) :
  setup evs props sid il src w = (Some b, w1) →
  Unmount ∉ es →
  count is_removeLayer (trace (run evs (b, w1) es).2)
  = count is_removeLayer (trace w)
  ∧ count is_warn (trace (run evs (b, w1) es).2) = count is_warn (trace w)
  ∧ ∀ id, id ≠ layerId props →
          id ∈ layers (run evs (b, w1) es).2 ↔ id ∈ layers w.
Proof.
  intros [-> ->]%setup_some Hes.
  match goal with
  | |- context [run evs (?b', ?w') es] =>
      destruct (run_frame evs es b' w' Hes) as (Hr & Hw & Hl)
  end.
  cbn [b_props] in Hl.
  rewrite Hr, Hw, watch_callback_trace, !count_app.
  rewrite count_callback_removes, count_callback_warns.
  repeat split; [lia|lia| |].
  - intros Hin. apply Hl in Hin; [|done].
    rewrite watch_callback_layers in Hin.
    destruct (satisfied il src); [|done].
    apply elem_of_union in Hin as [Hin|Hin]; [|done].
    by apply elem_of_singleton in Hin.
  - intros Hin. apply Hl; [done|]. rewrite watch_callback_layers.
    destruct (satisfied il src); [|done]. apply elem_of_union. by right.
Qed.

(** X6: every add-layer call a binding issues, at [setup] or later, passes
    the options generated for its layer id with the type tag [hillshade], and
    as anchor the [before] prop, or undefined when [before] is undefined or
    the empty string. *)
Theorem X6_add_layer_arguments (props : Props) (sid : option string)
    (il : bool) (src : option bool) (w : world) (b : binding) (w1 : world)
    (es : list event) (o : LayerOpts) (a : option string) :
  setup evs props sid il src w = (Some b, w1) →
  AddLayer o a ∈ trace (run evs (b, w1) es).2 →
  AddLayer o a ∈ trace w
  ∨ (o = genLayerOpts (layerId props) "hillshade" props sid
     ∧ a = match before props with
           | Some (String c s) => Some (String c s)
           | _ => None
           end).
Proof.
  intros [-> ->]%setup_some Hin.
  assert (JS.or_else JS.truthy_string (before props) None
          = match before props with
            | Some (String c s) => Some (String c s)
            | _ => None
            end) as Hanchor.
  { by destruct (before props) as [[|c s]|]. }
  rewrite <- Hanchor.
  apply run_add_arguments in Hin. cbn [b_props b_sourceId] in Hin.
  destruct Hin as [Hin|Hin]; [|by right].
  rewrite watch_callback_trace in Hin.
  apply elem_of_app in Hin as [Hin|Hin]; [by left|].
  unfold callback_calls in Hin. destruct (satisfied il src).
  - apply elem_of_cons in Hin as [[= -> ->]|Hin]; [by right|].
    apply list_elem_of_fmap in Hin as (ev & [=] & _).
  - by apply elem_of_nil in Hin.
Qed.

End layer_extras.

(** * Further properties: the popup component *)

Module PopupMoreFacts.
Import Popup PopupFacts Kinds.

(** A relation between the instance and its popup that [setup] establishes
    and every reaction keeps holds through the whole life. *)
Lemma reacts_invariant (Inv : instance → popup → Prop) :
  (∀ i ev p, Inv i p → Inv (react i ev).1 (execs p (react i ev).2)) →
  ∀ es i p, Inv i p → Inv (reacts i es).1 (execs p (reacts i es).2).
Proof.
  intros Hstep. induction es as [|e es IH]; intros i p Hinv; [done|].
  simpl. specialize (Hstep i e p Hinv).
  destruct (react i e) as [i1 t1]. specialize (IH i1 (execs p t1) Hstep).
  destruct (reacts i1 es) as [i2 t2]. simpl in *. by rewrite execs_app.
Qed.

Lemma life_invariant (Inv : instance → popup → Prop) props map marker :
  Inv (setup props map marker).1 (execs blank (setup props map marker).2) →
  (∀ i ev p, Inv i p → Inv (react i ev).1 (execs p (react i ev).2)) →
  ∀ es,
    Inv (reacts (setup props map marker).1 es).1
        (execs blank (life props map marker es)).
Proof.
  intros Hsetup Hstep es. unfold life.
  destruct (setup props map marker) as [i0 t0]. simpl in *.
  rewrite execs_app. by apply reacts_invariant.
Qed.

(** Case analysis on a reaction: which event, live or not, changed or not. *)
Ltac react_cases i ev :=
  destruct ev; cbn [react]; destruct (i_live i); cbn [fst snd];
  unfold on_coordinates, on_text, on_offset, on_maxWidth, on_className,
    on_subpixelPositioning, on_mounted, exposed_remove, unmount_hooks,
    emitEvent_off;
  repeat case_bool_decide; repeat case_match; subst.

(** No reaction constructs the popup or hands it to a map or a marker. *)
Lemma react_no_attach i ev :
  forallb (λ c, negb (attaches c)) (react i ev).2 = true.
Proof. react_cases i ev; done. Qed.

Lemma reacts_no_attach es : ∀ i,
  forallb (λ c, negb (attaches c)) (reacts i es).2 = true.
Proof.
  induction es as [|e es IH]; intros i; [done|]. simpl.
  pose proof (react_no_attach i e) as Hq.
  destruct (react i e) as [i1 t1]. specialize (IH i1).
  destruct (reacts i1 es) as [i2 t2]. simpl in *.
  rewrite forallb_app. by rewrite Hq, IH.
Qed.

Lemma exec_map_none p c :
  is_addTo c = false → p_map p = None → p_map (exec p c) = None.
Proof. by destruct c. Qed.

Lemma execs_map_none t : ∀ p,
  forallb (λ c, negb (is_addTo c)) t = true →
  p_map p = None → p_map (execs p t) = None.
Proof.
  induction t as [|c t IH]; intros p Ht Hp; [done|].
  simpl in Ht. apply andb_true_iff in Ht as [Hc Ht].
  unfold execs. simpl. fold (execs (exec p c) t).
  apply IH; [done|]. apply exec_map_none; [by apply negb_true_iff|done].
Qed.

Lemma attaches_addTo t :
  forallb (λ c, negb (attaches c)) t = true →
  forallb (λ c, negb (is_addTo c)) t = true.
Proof.
  induction t as [|c t IH]; [done|]. simpl.
  intros [Hc Ht]%andb_true_iff. rewrite IH by done.
  by destruct c.
Qed.

(** The popup settings, the content and the position, each with the calls
    that leave them alone. *)
Lemma exec_settings p c :
  on_settings c = false →
  p_offset (exec p c) = p_offset p
  ∧ p_maxWidth (exec p c) = p_maxWidth p
  ∧ p_subpixel (exec p c) = p_subpixel p.
Proof. by destruct c. Qed.

Lemma exec_content p c :
  on_content c = false → p_content (exec p c) = p_content p.
Proof. by destruct c. Qed.

Lemma exec_position p c :
  on_position c = false → p_lngLat (exec p c) = p_lngLat p.
Proof. by destruct c. Qed.

Lemma execs_cons p c t : execs p (c :: t) = execs (exec p c) t.
Proof. reflexivity. Qed.

Lemma execs_nil p : execs p [] = p.
Proof. reflexivity. Qed.

(** Closes a goal about the popup after the short trace of one reaction. *)
Ltac run_calls :=
  unfold execs; simpl; repeat case_bool_decide; simpl;
  try done; try congruence.

Lemma react_settings i ev p :
  p_offset p = offset (i_props i)
  ∧ p_maxWidth p = maxWidth (i_props i)
  ∧ p_subpixel p = subpixelPositioning (i_props i) →
  p_offset (execs p (react i ev).2) = offset (i_props (react i ev).1)
  ∧ p_maxWidth (execs p (react i ev).2) = maxWidth (i_props (react i ev).1)
  ∧ p_subpixel (execs p (react i ev).2)
    = subpixelPositioning (i_props (react i ev).1).
Proof.
  intros (Ho & Hw & Hs).
  react_cases i ev; (split; [|split]); run_calls.
Qed.

Lemma setup_settings props map marker :
  p_offset (execs blank (setup props map marker).2) = offset props
  ∧ p_maxWidth (execs blank (setup props map marker).2) = maxWidth props
  ∧ p_subpixel (execs blank (setup props map marker).2)
    = subpixelPositioning props.
Proof.
  unfold setup, attach, initial_text. cbn [snd].
  destruct marker as [[m|]|], (coordinates props), map,
    (text props) as [[|a s]|]; done.
Qed.

Lemma react_text i ev p :
  (∀ s, text (i_props i) = Some s → JS.truthy_string s = true →
        p_content p = TextContent s) →
  ∀ s, text (i_props (react i ev).1) = Some s → JS.truthy_string s = true →
       p_content (execs p (react i ev).2) = TextContent s.
Proof.
  intros Hinv.
  react_cases i ev; intros s' Hs' Ht'; simpl in *; simplify_eq;
    try (by apply Hinv); run_calls;
    try (by apply Hinv).
  - by rewrite Ht'.
  - rewrite Hs' in *. simpl in *. by rewrite Ht' in *.
Qed.

Lemma setup_text props map marker :
  ∀ s, text props = Some s → JS.truthy_string s = true →
       p_content (execs blank (setup props map marker).2) = TextContent s.
Proof.
  intros s Hs Ht. unfold setup, attach, initial_text. cbn [snd].
  rewrite Hs, Ht.
  destruct marker as [[m|]|], (coordinates props), map; done.
Qed.

Lemma react_position i ev p :
  (∀ c, coordinates (i_props i) = Some c → p_lngLat p = Some c) →
  ∀ c, coordinates (i_props (react i ev).1) = Some c →
       p_lngLat (execs p (react i ev).2) = Some c.
Proof.
  intros Hinv.
  react_cases i ev; intros c' Hc'; simpl in *; simplify_eq;
    try (by apply Hinv); run_calls; by apply Hinv.
Qed.

Lemma setup_position props mref marker :
  marker = None ∨ marker = Some None →
  ∀ c, coordinates props = Some c →
       p_lngLat (execs blank (setup props (Some mref) marker).2) = Some c.
Proof.
  intros Hm c Hc. unfold setup, attach, initial_text. cbn [snd]. rewrite Hc.
  destruct Hm as [-> | ->], (text props) as [[|a s]|]; done.
Qed.

End PopupMoreFacts.

Section popup_extras.
Import Popup PopupFacts PopupMoreFacts Kinds.

(** X7: after [setup] the component never constructs a popup again and
    never hands it to the map or to a marker; so a popup declared without
    coordinates is never put on the map by the component, even when
    coordinates are given later. *)
Theorem X7_popup_without_coordinates_never_opens (props : Props)
    (map : option (option map_id)) (marker : option (option marker_id))
    (es : list event) :
  coordinates props = None →
  forallb (λ c, negb (attaches c)) (reacts (setup props map marker).1 es).2
  = true
  ∧ p_map (execs blank (life props map marker es)) = None.
Proof.
  intros Hc. split; [apply reacts_no_attach|].
  unfold life.
  assert (p_map (execs blank (setup props map marker).2) = None) as Hs.
  { unfold setup, attach, initial_text. cbn [snd]. rewrite Hc.
    destruct marker as [[m|]|], (text props) as [[|a s]|]; done. }
  destruct (setup props map marker) as [i0 t0]. simpl in *.
  rewrite execs_app. apply execs_map_none; [|done].
  apply attaches_addTo, reacts_no_attach.
Qed.

(** X8: from [setup] until unmount the popup carries exactly the two
    forwarding listeners, one for [open] and one for [close]: prop changes,
    mounting and calls of the exposed [remove] neither detach nor duplicate
    them. *)
Theorem X8_listeners_stay_until_unmount (props : Props)
    (map : option (option map_id)) (marker : option (option marker_id))
    (es : list event) :
  BeforeUnmount ∉ es →
  p_handlers (execs blank (life props map marker es))
  = [("open", Emitter "open"); ("close", Emitter "close")].
Proof. apply life_handlers. Qed.

(** X9: the offset, the maximal width and the subpixel flag of the popup
    equal the current props at every point of the life of a component. *)
Theorem X9_settings_follow_props (props : Props)
    (map : option (option map_id)) (marker : option (option marker_id))
    (es : list event) :
  p_offset (execs blank (life props map marker es))
  = offset (i_props (reacts (setup props map marker).1 es).1)
  ∧ p_maxWidth (execs blank (life props map marker es))
    = maxWidth (i_props (reacts (setup props map marker).1 es).1)
  ∧ p_subpixel (execs blank (life props map marker es))
    = subpixelPositioning (i_props (reacts (setup props map marker).1 es).1).
Proof.
  apply (life_invariant
           (λ i p, p_offset p = offset (i_props i)
                   ∧ p_maxWidth p = maxWidth (i_props i)
                   ∧ p_subpixel p = subpixelPositioning (i_props i))).
  - apply setup_settings.
  - intros i ev p. apply react_settings.
Qed.

(** X10: whenever the current [text] prop is a non-empty string, the content
    of the popup is that text: neither mounting (which would install the
    slot content) nor any other prop change replaces it. *)
Theorem X10_text_wins_over_slot (props : Props)
    (map : option (option map_id)) (marker : option (option marker_id))
    (es : list event) (s : string) :
  text (i_props (reacts (setup props map marker).1 es).1) = Some s →
  s ≠ EmptyString →
  p_content (execs blank (life props map marker es)) = TextContent s.
Proof.
  intros Hs Hne.
  apply (life_invariant
           (λ i p, ∀ s, text (i_props i) = Some s →
                        JS.truthy_string s = true →
                        p_content p = TextContent s)); try done.
  - apply setup_text.
  - intros i ev p. apply react_text.
  - by destruct s.
Qed.

(** X11: mounting a live component with a root element installs the slot
    content exactly when the current [text] prop is undefined or empty;
    otherwise the text stays. *)
Theorem X11_mount_installs_slot_unless_text (props : Props)
    (map : option (option map_id)) (marker : option (option marker_id))
    (es : list event) (el : element) :
  BeforeUnmount ∉ es →
  p_content (execs blank (life props map marker (es ++ [Mounted (Some el)])))
  = match text (i_props (reacts (setup props map marker).1 es).1) with
    | Some (String a s) => TextContent (String a s)
    | _ => DomContent el
    end.
Proof.
  intros Hes. rewrite life_snoc, execs_app.
  pose proof (reacts_live es (setup props map marker).1 Hes) as Hlive.
  pose proof (X := life_invariant
    (λ i p, ∀ s, text (i_props i) = Some s → JS.truthy_string s = true →
                 p_content p = TextContent s)
    props map marker (setup_text props map marker)
    (λ i ev p, react_text i ev p) es).
  change (i_live (setup props map marker).1) with true in Hlive.
  set (i := (reacts (setup props map marker).1 es).1) in *.
  set (p := execs blank (life props map marker es)) in *.
  cbn [react]. rewrite Hlive. cbn [snd]. unfold on_mounted.
  destruct (text (i_props i)) as [[|a s]|] eqn:Ht; simpl; try done.
  by apply X.
Qed.

(** X13: outside a marker and with a map injected, the position of the
    popup is the current [coordinates] prop whenever that is defined; and
    clearing the prop makes no call, so the popup keeps its position. *)
Theorem X13_position_follows_coordinates (props : Props) (mref : option map_id)
    (marker : option (option marker_id)) (es : list event) (c : LngLat) :
  marker = None ∨ marker = Some None →
  coordinates (i_props (reacts (setup props (Some mref) marker).1 es).1)
  = Some c →
  p_lngLat (execs blank (life props (Some mref) marker es)) = Some c
  ∧ ∀ i p, p_lngLat (execs p (react i (PropCoordinates None)).2) = p_lngLat p.
Proof.
  intros Hm Hc. split.
  - apply (life_invariant
             (λ i p, ∀ c, coordinates (i_props i) = Some c →
                          p_lngLat p = Some c)); try done.
    + by apply setup_position.
    + intros i ev p. apply react_position.
  - intros i p. cbn [react]. by destruct (i_live i).
Qed.

End popup_extras.

(** ** The further properties on concrete components *)

Section layer_extra_instances.
Import Layer LayerFacts Samples Kinds.

Lemma X5_witness :
  count is_removeLayer
    (trace (run events
              (bindingA true (Some true),
               watch_callback events layerA None true (Some true) fresh)
              [Flush true (Some false); Flush true (Some true)]).2)
  = count is_removeLayer (trace fresh)
  ∧ count is_warn
      (trace (run events
                (bindingA true (Some true),
                 watch_callback events layerA None true (Some true) fresh)
                [Flush true (Some false); Flush true (Some true)]).2)
    = count is_warn (trace fresh)
  ∧ ∀ id, id ≠ layerId layerA →
          id ∈ layers (run events
                         (bindingA true (Some true),
                          watch_callback events layerA None true (Some true) fresh)
                         [Flush true (Some false); Flush true (Some true)]).2
          ↔ id ∈ layers fresh.
Proof.
  apply (X5_mounted_binding_only_adds events layerA None true (Some true) fresh).
  - reflexivity.
  - apply (bool_decide_unpack _). vm_compute. exact I.
Defined.

Lemma X6_witness :
  AddLayer (genLayerOpts "layerB" "hillshade" layerB None) (Some "labels")
  ∈ trace fresh
  ∨ (genLayerOpts "layerB" "hillshade" layerB None
     = genLayerOpts (layerId layerB) "hillshade" layerB None
     ∧ Some "labels"
       = match before layerB with
         | Some (String c s) => Some (String c s)
         | _ => None
         end).
Proof.
  apply (X6_add_layer_arguments events layerB None true None fresh
           {| b_props := layerB; b_sourceId := None;
              b_mounted := true; b_seen := (true, None) |}
           (watch_callback events layerB None true None fresh) []).
  - reflexivity.
  - vm_compute. constructor.
Defined.

End layer_extra_instances.

Section popup_extra_instances.
Import Popup PopupFacts Samples Kinds.

Lemma X7_witness :
  forallb (λ c, negb (attaches c))
    (reacts (setup popupB (Some (Some 7)) None).1
       [PropCoordinates (Some (1, 2)%Z); Mounted (Some 3)]).2
  = true
  ∧ p_map (execs blank
             (life popupB (Some (Some 7)) None
                [PropCoordinates (Some (1, 2)%Z); Mounted (Some 3)]))
    = None.
Proof.
  apply (X7_popup_without_coordinates_never_opens popupB (Some (Some 7)) None
           [PropCoordinates (Some (1, 2)%Z); Mounted (Some 3)]).
  reflexivity.
Defined.

Lemma X8_witness :
  p_handlers (execs blank
                (life popupA (Some (Some 7)) None [CallRemove; PropText None]))
  = [("open", Emitter "open"); ("close", Emitter "close")].
Proof.
  apply (X8_listeners_stay_until_unmount popupA (Some (Some 7)) None
           [CallRemove; PropText None]).
  apply (bool_decide_unpack _). vm_compute. exact I.
Defined.

Lemma X10_witness :
  p_content (execs blank
               (life popupA (Some (Some 7)) None
                  [Mounted (Some 5); PropClassName None]))
  = TextContent "hello".
Proof.
  apply (X10_text_wins_over_slot popupA (Some (Some 7)) None
           [Mounted (Some 5); PropClassName None] "hello").
  - reflexivity.
  - discriminate.
Defined.

Lemma X11_witness :
  p_content (execs blank
               (life popupA (Some (Some 7)) None
                  ([PropText None] ++ [Mounted (Some 5)])))
  = match text (i_props (reacts (setup popupA (Some (Some 7)) None).1
                           [PropText None]).1) with
    | Some (String a s) => TextContent (String a s)
    | _ => DomContent 5
    end.
Proof.
  apply (X11_mount_installs_slot_unless_text popupA (Some (Some 7)) None
           [PropText None] 5).
  apply (bool_decide_unpack _). vm_compute. exact I.
Defined.

Lemma X13_witness :
  p_lngLat (execs blank
              (life popupA (Some (Some 7)) None
                 [PropCoordinates None; PropCoordinates (Some (3, 4)%Z)]))
  = Some (3, 4)%Z
  ∧ ∀ i p, p_lngLat (execs p (react i (PropCoordinates None)).2) = p_lngLat p.
Proof.
  apply (X13_position_follows_coordinates popupA (Some 7) None
           [PropCoordinates None; PropCoordinates (Some (3, 4)%Z)] (3, 4)%Z).
  - left. reflexivity.
  - reflexivity.
Defined.

End popup_extra_instances.
